(** * jsq: a four-function calculator (src/App.tsx)

    The calculator is a React function component.  Its logic is a set of
    event handlers over four [useState] cells ([current], [previous],
    [operator], [overwrite]) and a handful of pure helpers that turn a
    JavaScript number into the string shown on the display.

    The development has three layers:
    - [JSString]: the string primitives the handlers call
      ([includes], [replace], [slice], the three regular expressions of
      [trimTrailingZeros]);
    - [JSNumber]: ECMAScript numbers as IEEE 754 binary64 values
      (the standard library's [spec_float]), with [parseFloat],
      [Number.prototype.toFixed], [Number.prototype.toString] and
      [Number.isFinite] written after ECMA-262;
    - [Calc]: the helpers and handlers of App.tsx, and the properties
      proved about them.

    Strings are sequences of code units below 256; every string the
    program builds is ASCII (the operator glyphs only ever travel as
    values of the [Operator] type). *)

From Stdlib Require Import ZArith String Ascii List Bool Lia.
From Stdlib Require Import DecimalString DecimalPos.
From Stdlib Require Import Floats.SpecFloat.
Import ListNotations.

Local Open Scope string_scope.

(* ================================================================== *)
(** ** String primitives *)

Module JSString.

Definition isDigit (c : ascii) : bool :=
  let n := nat_of_ascii c in (48 <=? n)%nat && (n <=? 57)%nat.

(** [s.includes(c)] for a one-character needle. *)
Fixpoint includes (c : ascii) (s : string) : bool :=
  match s with
  | EmptyString => false
  | String a r => Ascii.eqb a c || includes c r
  end.

(** [s.replace(c, '')] with a string pattern: only the first
    occurrence of the needle is removed, wherever it stands. *)
Fixpoint removeFirst (c : ascii) (s : string) : string :=
  match s with
  | EmptyString => EmptyString
  | String a r => if Ascii.eqb a c then r else String a (removeFirst c r)
  end.

(** [s.slice(0, -1)]: everything but the last code unit. *)
Fixpoint sliceInit (s : string) : string :=
  match s with
  | EmptyString => EmptyString
  | String a EmptyString => EmptyString
  | String a r => String a (sliceInit r)
  end.

Fixpoint all (p : ascii -> bool) (s : string) : bool :=
  match s with
  | EmptyString => true
  | String a r => p a && all p r
  end.

Definition isEmpty (s : string) : bool :=
  match s with EmptyString => true | _ => false end.

Definition isZeroChar (c : ascii) : bool := Ascii.eqb c "0".

(** [0+$] : the rest of the input is one or more zeros. *)
Definition zerosToEnd (s : string) : bool :=
  negb (isEmpty s) && all isZeroChar s.

(** [s.replace(/\.0+$/, '')].  The matcher tries start positions from
    the left; at a start position the pattern matches exactly when the
    character is a point and the rest of the input is [0+]. *)
Fixpoint replaceDotZeros (s : string) : string :=
  match s with
  | EmptyString => EmptyString
  | String a r =>
      if Ascii.eqb a "." && zerosToEnd r then EmptyString
      else String a (replaceDotZeros r)
  end.

Fixpoint endsWithZero (s : string) : bool :=
  match s with
  | EmptyString => false
  | String a EmptyString => isZeroChar a
  | String _ r => endsWithZero r
  end.

(** Drop the zeros that end a string. *)
Fixpoint dropTrailingZeros (s : string) : string :=
  match s with
  | EmptyString => EmptyString
  | String a r =>
      if all isZeroChar (String a r) then EmptyString
      else String a (dropTrailingZeros r)
  end.

(** [\d*?[1-9]0+$] against the rest of the input: every character is
    a digit, the last one is a zero, and some character is not a zero.
    The split is then forced: [0+] is the final run of zeros and
    [[1-9]] the digit before it, so laziness of [\d*?] changes
    nothing. *)
Definition fracZerosToEnd (s : string) : bool :=
  all isDigit s && endsWithZero s && negb (all isZeroChar s).

(** [s.replace(/(\.\d*?[1-9])0+$/, '$1')]. *)
Fixpoint replaceFracZeros (s : string) : string :=
  match s with
  | EmptyString => EmptyString
  | String a r =>
      if Ascii.eqb a "." && fracZerosToEnd r
      then String a (dropTrailingZeros r)
      else String a (replaceFracZeros r)
  end.

(** [s.replace(/\.$/, '')]. *)
Fixpoint replaceTrailingDot (s : string) : string :=
  match s with
  | EmptyString => EmptyString
  | String a r =>
      if Ascii.eqb a "." && isEmpty r then EmptyString
      else String a (replaceTrailingDot r)
  end.

Fixpoint repeat (c : ascii) (n : nat) : string :=
  match n with
  | O => EmptyString
  | S k => String c (repeat c k)
  end.

Fixpoint dropWhile (p : ascii -> bool) (s : string) : string :=
  match s with
  | EmptyString => EmptyString
  | String a r => if p a then dropWhile p r else s
  end.

Fixpoint takeWhile (p : ascii -> bool) (s : string) : string :=
  match s with
  | EmptyString => EmptyString
  | String a r => if p a then String a (takeWhile p r) else EmptyString
  end.

Definition take (n : nat) (s : string) : string := substring 0 n s.
Definition drop (n : nat) (s : string) : string :=
  substring n (String.length s - n) s.

(** Number of occurrences of a character. *)
Fixpoint count (c : ascii) (s : string) : nat :=
  match s with
  | EmptyString => 0
  | String a r => (if Ascii.eqb a c then 1 else 0) + count c r
  end.

End JSString.

(* ================================================================== *)
(** ** ECMAScript numbers *)

Module JSNumber.
Import JSString.
Local Open Scope Z_scope.

Definition prec : Z := 53.
Definition emax : Z := 1024.

(** A Number value: a binary64 datum. *)
Definition Number : Type := spec_float.

(** [Number.isFinite]. *)
Definition isFinite (x : Number) : bool :=
  match x with
  | S754_zero _ | S754_finite _ _ _ => true
  | S754_infinity _ | S754_nan => false
  end.

(** [x === 0]: both zeros compare equal to [0]. *)
Definition isZero (x : Number) : bool := SFeqb x (S754_zero false).

Definition add : Number -> Number -> Number := SFadd prec emax.
Definition sub : Number -> Number -> Number := SFsub prec emax.
Definition mul : Number -> Number -> Number := SFmul prec emax.
Definition div : Number -> Number -> Number := SFdiv prec emax.

Definition sameValue (x y : Number) : bool :=
  match x, y with
  | S754_zero a, S754_zero b => Bool.eqb a b
  | S754_infinity a, S754_infinity b => Bool.eqb a b
  | S754_nan, S754_nan => true
  | S754_finite a m e, S754_finite b n f =>
      Bool.eqb a b && Pos.eqb m n && Z.eqb e f
  | _, _ => false
  end.

(** The Number value for the rational [num / den], with the given
    sign: round to nearest, ties to even. *)
Definition ofRatio (neg : bool) (num den : positive) : Number :=
  div (S754_finite neg num 0) (S754_finite false den 0).

(** The Number value for [m * 10 ^ e]. *)
Definition ofDecimal (neg : bool) (m e : Z) : Number :=
  match m with
  | Zpos p =>
      if 0 <=? e then ofRatio neg (p * Z.to_pos (10 ^ e)) 1
      else ofRatio neg p (Z.to_pos (10 ^ (- e)))
  | _ => S754_zero neg
  end.

(** The mathematical value of a positive finite datum [m * 2 ^ e],
    as a fraction. *)
Definition fraction (m : positive) (e : Z) : Z * Z :=
  if 0 <=? e then (Zpos m * 2 ^ e, 1) else (Zpos m, 2 ^ (- e)).

(** Decimal representation of a natural number. *)
Definition decimal (n : Z) : string :=
  NilEmpty.string_of_uint (N.to_uint (Z.to_N n)).

Definition digitValue (c : ascii) : Z := Z.of_nat (nat_of_ascii c) - 48.

Fixpoint digitsValueFrom (acc : Z) (s : string) : Z :=
  match s with
  | EmptyString => acc
  | String c r => digitsValueFrom (10 * acc + digitValue c) r
  end.

(** The MV of a run of DecimalDigits. *)
Definition digitsValue (s : string) : Z := digitsValueFrom 0 s.

(* ---------------------------------------------------------------- *)
(** *** parseFloat (ECMA-262, 19.2.4) *)

(** StrWhiteSpaceChar, for code units below 256: TAB, LF, VT, FF, CR,
    SP and NBSP. *)
Definition isWhiteSpace (c : ascii) : bool :=
  let n := nat_of_ascii c in
  ((9 <=? n)%nat && (n <=? 13)%nat) || (n =? 32)%nat || (n =? 160)%nat.

Definition splitSign (s : string) : bool * string :=
  match s with
  | String "+" r => (false, r)
  | String "-" r => (true, r)
  | _ => (false, s)
  end.

(** ExponentPart, when the input continues with a complete one;
    otherwise the literal stops before it and the exponent is 0. *)
Definition exponentPart (s : string) : Z :=
  match s with
  | String c r =>
      if Ascii.eqb c "e" || Ascii.eqb c "E" then
        let '(neg, r') := splitSign r in
        let ds := takeWhile isDigit r' in
        if isEmpty ds then 0
        else if neg then - digitsValue ds else digitsValue ds
      else 0
  | EmptyString => 0
  end.

(** The longest prefix of the trimmed input that is a
    StrDecimalLiteral is converted; with no such prefix the result is
    NaN.  The literal's value is rounded exactly (ECMA-262 lets an
    engine truncate after the 20th significant digit; the operands of
    this program have at most 18). *)
Definition parseFloat (input : string) : Number :=
  let trimmed := dropWhile isWhiteSpace input in
  let '(neg, body) := splitSign trimmed in
  if prefix "Infinity" body then S754_infinity neg
  else
    let ip := takeWhile isDigit body in
    let afterInt := dropWhile isDigit body in
    let '(fp, rest) :=
      match afterInt with
      | String "." r => (takeWhile isDigit r, dropWhile isDigit r)
      | _ => (EmptyString, afterInt)
      end in
    if isEmpty ip && isEmpty fp then S754_nan
    else
      ofDecimal neg (digitsValue (ip ++ fp))
                (exponentPart rest - Z.of_nat (String.length fp)).

(* ---------------------------------------------------------------- *)
(** *** Number::toString (ECMA-262, 6.1.6.1.20), radix 10 *)

(** [decimalExponent m e] is the [n] with
    [10^(n-1) <= m * 2^e < 10^n]. *)
Fixpoint firstScale (fuel : nat) (j num den : Z) : Z :=
  match fuel with
  | O => j
  | S f => if den <=? num * 10 ^ j then j else firstScale f (j + 1) num den
  end.

Definition decimalExponent (m : positive) (e : Z) : Z :=
  let '(num, den) := fraction m e in
  if den <=? num then Z.of_nat (String.length (decimal (num / den)))
  else 1 - firstScale (Z.to_nat (- e)) 1 num den.

(** The two [k]-digit candidates around [x = m * 2^e], with the
    comparison of [x]'s distance to each: the value is
    [(lo, cmp)] where [lo * 10^(n-k) <= x < (lo+1) * 10^(n-k)]. *)
Definition candidates (m : positive) (e n k : Z) : Z * comparison :=
  let '(num, den) := fraction m e in
  let '(num', den') :=
    if n <=? k then (num * 10 ^ (k - n), den)
    else (num, den * 10 ^ (n - k)) in
  (num' / den', (2 * (num' mod den')) ?= den').

Definition closest (lo : Z) (c : comparison) : Z :=
  match c with
  | Lt => lo
  | Gt => lo + 1
  | Eq => if Z.even lo then lo else lo + 1
  end.

(** Step 5, in the form of its Note 2, which the engines implement:
    the least [k] for which some [k]-digit [s] has [s * 10^(n-k)] read
    back as [x]; among several, the closest to [x], and of two equally
    close the even one.  Seventeen digits always identify a binary64,
    so the search stops there. *)
Fixpoint shortest (fuel : nat) (x : Number) (m : positive) (e n k : Z)
  : Z * Z :=
  let '(lo, c) := candidates m e n k in
  match fuel with
  | O => (closest lo c, k)
  | S f =>
      let okLo := sameValue (ofDecimal false lo (n - k)) x in
      let okHi := sameValue (ofDecimal false (lo + 1) (n - k)) x in
      match okLo, okHi with
      | true, true => (closest lo c, k)
      | true, false => (lo, k)
      | false, true => (lo + 1, k)
      | false, false => shortest f x m e n (k + 1)
      end
  end.

Definition zeros (n : Z) : string := repeat "0" (Z.to_nat n).

Definition exponentSuffix (n : Z) : string :=
  "e" ++ (if n - 1 <? 0 then "-" else "+") ++ decimal (Z.abs (n - 1)).

(** Steps 6 to 10: lay out the digits [ds] of [s] with decimal
    exponent [n]. *)
Definition layout (ds : string) (n : Z) : string :=
  let k := Z.of_nat (String.length ds) in
  if (k <=? n) && (n <=? 21) then ds ++ zeros (n - k)
  else if (0 <? n) && (n <=? 21) then
    take (Z.to_nat n) ds ++ "." ++ drop (Z.to_nat n) ds
  else if (-6 <? n) && (n <=? 0) then "0." ++ zeros (- n) ++ ds
  else if k =? 1 then ds ++ exponentSuffix n
  else take 1 ds ++ "." ++ drop 1 ds ++ exponentSuffix n.

Definition toStringPositive (m : positive) (e : Z) : string :=
  let n := decimalExponent m e in
  let '(s, k) := shortest 16 (S754_finite false m e) m e n 1 in
  if s =? 10 ^ k then layout "1" (n + 1) else layout (decimal s) n.

Definition toString (x : Number) : string :=
  match x with
  | S754_nan => "NaN"
  | S754_zero _ => "0"
  | S754_infinity s => if s then "-Infinity" else "Infinity"
  | S754_finite s m e =>
      (if s then "-" else "") ++ toStringPositive m e
  end.

(* ---------------------------------------------------------------- *)
(** *** Number.prototype.toFixed (ECMA-262, 21.1.3.3) *)

(** Step 9.c-d: the digits of [n] with a point before the last [f]. *)
Definition fixedLayout (n : Z) (f : nat) : string :=
  let m := decimal n in
  match f with
  | O => m
  | _ =>
      let k := String.length m in
      let m' := if (k <=? f)%nat then repeat "0" (f + 1 - k) ++ m else m in
      let k' := if (k <=? f)%nat then (f + 1)%nat else k in
      take (k' - f) m' ++ "." ++ drop (k' - f) m'
  end.

(** Step 9.a: the integer [n] for which [n / 10^f - x] is closest to
    zero, the larger one of two. *)
Definition fixedInteger (m : positive) (e : Z) (f : nat) : Z :=
  let '(num, den) := fraction m e in
  (2 * num * 10 ^ Z.of_nat f + den) / (2 * den).

Definition toFixed (x : Number) (f : nat) : string :=
  match x with
  | S754_nan | S754_infinity _ => toString x
  | S754_zero _ => fixedLayout 0 f
  | S754_finite s m e =>
      let '(num, den) := fraction m e in
      (if s then "-" else "") ++
      (if 10 ^ 21 * den <=? num then toStringPositive m e
       else fixedLayout (fixedInteger m e f) f)
  end.

End JSNumber.

(* ================================================================== *)
(** ** The calculator *)

Module Calc.
Import JSString JSNumber.

(** [type Operator = '÷' | '×' | '-' | '+'] *)
Inductive Operator : Type := Divide | Multiply | Subtract | Add.

Definition operators (op : Operator) : Number -> Number -> Number :=
  match op with
  | Divide => div
  | Multiply => mul
  | Subtract => sub
  | Add => add
  end.

Definition isDivide (op : Operator) : bool :=
  match op with Divide => true | _ => false end.

Definition initialCurrent : string := "0".
Definition MAX_LENGTH : nat := 18.

Definition sanitizeNumber (value : string) : string :=
  if value =? "Error" then initialCurrent
  else if value =? "" then initialCurrent
  else value.

Definition trimTrailingZeros (value : string) : string :=
  if negb (includes "." value) then value
  else
    let trimmed :=
      replaceTrailingDot (replaceFracZeros (replaceDotZeros value)) in
    if trimmed =? "" then initialCurrent else trimmed.

Definition formatResult (value : Number) : string :=
  let fixed := parseFloat (toFixed value 10) in
  if negb (isFinite fixed) then "Error"
  else trimTrailingZeros (toString fixed).

Definition compute (a b : string) (op : Operator) : string :=
  let first := parseFloat a in
  let second := parseFloat b in
  if negb (isFinite first) || negb (isFinite second) then "Error"
  else if isDivide op && isZero second then "Error"
  else formatResult (operators op first second).

(** *** Component state

    The four [useState] cells of [App]. *)
Record State : Type := mkState {
  current : string;
  previous : option string;
  operator : option Operator;
  overwrite : bool
}.

Definition initialState : State := mkState initialCurrent None None false.

(** A handler runs inside one render: the names [current],
    [previous], [operator] and [overwrite] it reads are the constants
    that render bound, and stay what they were however many setters
    the handler has called.  A setter only queues the value for the
    next render; React applies the queued values of one event in
    order, so the last value set for a cell wins.  A handler is
    therefore a function from the render's state to an [Update] of
    the pending state. *)
Definition Update : Type := State -> State.

Definition andThen (u v : Update) : Update := fun pending => v (u pending).
Definition done : Update := fun pending => pending.

Declare Scope update_scope.
Delimit Scope update_scope with update.
Bind Scope update_scope with Update.
Notation "u ;; v" := (andThen u v)
  (at level 61, right associativity) : update_scope.
Local Open Scope update_scope.

Definition setCurrent (v : string) : Update :=
  fun p => mkState v (previous p) (operator p) (overwrite p).
Definition setPrevious (v : option string) : Update :=
  fun p => mkState (current p) v (operator p) (overwrite p).
Definition setOperator (v : option Operator) : Update :=
  fun p => mkState (current p) (previous p) v (overwrite p).
Definition setOverwrite (v : bool) : Update :=
  fun p => mkState (current p) (previous p) (operator p) v.

Definition clearAll : Update :=
  setCurrent initialCurrent ;;
  setPrevious None ;;
  setOperator None ;;
  setOverwrite false.

Section Render.
(** The state the current render closed over. *)
Variable render : State.

Definition resetIfError : Update :=
  if current render =? "Error" then clearAll else done.

Definition handleDigit (digit : string) : Update :=
  resetIfError ;;
  let next :=
    if overwrite render || (current render =? initialCurrent)
    then digit else current render ++ digit in
  if (MAX_LENGTH <? String.length (removeFirst "-" next))%nat then done
  else if overwrite render then
    setCurrent next ;; setOverwrite false
  else
    setCurrent (if next =? "" then initialCurrent else next).

Definition handleDecimal : Update :=
  resetIfError ;;
  if includes "." (current render) then done
  else if overwrite render then
    setCurrent "0." ;; setOverwrite false
  else if (MAX_LENGTH <?
           String.length (removeFirst "-" (current render ++ ".")))%nat
  then done
  else setCurrent (current render ++ ".").

Definition handleOperator (nextOp : Operator) : Update :=
  resetIfError ;;
  match operator render, previous render, overwrite render with
  | Some op, Some prev, false =>
      let result := compute prev (current render) op in
      setPrevious (Some result) ;; setCurrent result
  | _, _, _ => setPrevious (Some (current render))
  end ;;
  setOperator (Some nextOp) ;;
  setOverwrite true.

Definition handleEqual : Update :=
  resetIfError ;;
  match operator render, previous render with
  | Some op, Some prev =>
      let result := compute prev (current render) op in
      setCurrent result ;;
      setPrevious None ;;
      setOperator None ;;
      setOverwrite true
  | _, _ => done
  end.

Definition handleDelete : Update :=
  resetIfError ;;
  if overwrite render then
    setCurrent initialCurrent ;; setOverwrite false
  else if (String.length (current render) <=? 1)%nat then
    setCurrent initialCurrent
  else setCurrent (sliceInit (current render)).
End Render.

(** The digit keys: their labels are the one-character strings
    ["0"] to ["9"]. *)
Inductive Digit : Type := D0 | D1 | D2 | D3 | D4 | D5 | D6 | D7 | D8 | D9.

Definition digitChar (d : Digit) : ascii :=
  match d with
  | D0 => "0" | D1 => "1" | D2 => "2" | D3 => "3" | D4 => "4"
  | D5 => "5" | D6 => "6" | D7 => "7" | D8 => "8" | D9 => "9"
  end%char.

Definition label (d : Digit) : string := String (digitChar d) "".

(** What a key of the [buttons] table triggers: its [action] tag with
    the payload [handleButtonClick] passes on. *)
Inductive Action : Type :=
| ADigit (d : Digit)
| ADecimal
| AOperator (op : Operator)
| AEqual
| AClear
| ADelete.

Definition handleButtonClick (render : State) (button : Action) : Update :=
  match button with
  | ADigit d => handleDigit render (label d)
  | ADecimal => handleDecimal render
  | AOperator op => handleOperator render op
  | AEqual => handleEqual render
  | AClear => clearAll
  | ADelete => handleDelete render
  end.

(** One click: the handler of the render that shows [s] runs, and the
    values it queued on top of [s] become the next state. *)
Definition click (button : Action) (s : State) : State :=
  handleButtonClick s button s.

Definition run (buttons : list Action) (s : State) : State :=
  fold_left (fun st b => click b st) buttons s.

(** [const displayValue = useMemo(() => sanitizeNumber(current), [current])] *)
Definition displayValue (current : string) : string :=
  sanitizeNumber current.

(** *** Vocabulary of the specification *)

(** A string with its leading minus sign, if any, left out. *)
Definition stripSign (s : string) : string :=
  match s with
  | String "-" r => r
  | _ => s
  end.

Definition present {A : Type} (o : option A) : Prop := o <> None.

(** The pending operator and the previous operand come and go
    together. *)
Definition paired (s : State) : Prop :=
  present (operator s) <-> present (previous s).

(** A decimal numeral: an optional minus sign, then digits with at
    most one decimal point among them. *)
Definition isNumeralChar (c : ascii) : bool :=
  isDigit c || Ascii.eqb c ".".

Definition isDecimalString (x : string) : bool :=
  all isNumeralChar (stripSign x) && (count "." x <=? 1)%nat.

(** The digit action as the specification words it. *)
Definition digitSpec (d : Digit) (s : State) : State :=
  let next :=
    if overwrite s || (current s =? "0") then label d
    else current s ++ label d in
  if (18 <? String.length (stripSign next))%nat then s
  else mkState next (previous s) (operator s)
               (if overwrite s then false else overwrite s).

(** Keys that edit the operand on display. *)
Definition isTyping (b : Action) : bool :=
  match b with
  | ADigit _ | ADecimal | ADelete => true
  | _ => false
  end.

(** The characters a user can type into an operand. *)
Definition typed (s : string) : Prop := all isNumeralChar s = true.

(** A string that [compute] returned. *)
Definition isResult (s : string) : Prop :=
  exists a b op, s = compute a b op.

(** What the length guards of [handleDigit] and [handleDecimal]
    maintain: an operand under edit has no sign and at most
    [MAX_LENGTH] characters; a value on display that the next key
    will overwrite is within the cap or came out of [compute]. *)
Definition bounded (s : State) : Prop :=
  if overwrite s
  then String.length (stripSign (current s)) <= MAX_LENGTH \/
       isResult (current s)
  else includes "-" (current s) = false /\
       String.length (current s) <= MAX_LENGTH.

(** A binary operation [a op _] waits for its right operand, and the
    display holds something that can serve as one. *)
Definition awaiting (a : string) (op : Operator) (s : State) : Prop :=
  previous s = Some a /\ operator s = Some op /\
  if overwrite s then current s <> "Error" else typed (current s).

(** The session [1 / 0 =], which leaves the error sentinel on
    display. *)
Definition divideByZero : list Action :=
  [ADigit D1; AOperator Divide; ADigit D0; AEqual].

(** The session [1000000000 * 1000000000 =]. *)
Definition billionSquared : list Action :=
  let billion := ADigit D1 :: List.repeat (ADigit D0) 9 in
  billion ++ [AOperator Multiply] ++ billion ++ [AEqual].

End Calc.

(* ================================================================== *)
(** ** The keypad and the history line *)

Module Keypad.
Import JSString JSNumber Calc.

(** The [action] tags of [ButtonConfig]. *)
Inductive ActionKind : Type :=
| KDigit | KOperator | KDecimal | KClear | KDelete | KEqual.

(** [type ButtonConfig], without the two presentation fields
    ([className], [style]). *)
Record ButtonConfig : Type := mkButton {
  label : string;
  action : ActionKind;
  value : option string
}.

(** The operator glyphs as strings: [÷] is the code unit U+00F7 and [×]
    the code unit U+00D7. *)
Definition glyph (op : Operator) : string :=
  match op with
  | Divide => String "247" ""
  | Multiply => String "215" ""
  | Subtract => "-"
  | Add => "+"
  end.

(** [button.value as Operator] is an unchecked assertion; the strings
    that inhabit [Operator] are the four glyphs. *)
Definition asOperator (v : string) : option Operator :=
  if v =? glyph Divide then Some Divide
  else if v =? glyph Multiply then Some Multiply
  else if v =? glyph Subtract then Some Subtract
  else if v =? glyph Add then Some Add
  else None.

Definition key (l : string) (a : ActionKind) : ButtonConfig :=
  mkButton l a None.

Definition operatorKey (op : Operator) : ButtonConfig :=
  mkButton (glyph op) KOperator (Some (glyph op)).

(** [const buttons: ButtonConfig[]], in source order. *)
Definition buttons : list ButtonConfig :=
  [ key "C" KClear; key "DEL" KDelete;
    operatorKey Divide; operatorKey Multiply;
    key "7" KDigit; key "8" KDigit; key "9" KDigit; operatorKey Subtract;
    key "4" KDigit; key "5" KDigit; key "6" KDigit; operatorKey Add;
    key "1" KDigit; key "2" KDigit; key "3" KDigit;
    key "=" KEqual;
    key "0" KDigit; key "." KDecimal ].

(** [handleButtonClick] on a table entry.  [None] stands for an
    operator button whose [value] is not an [Operator], which the type
    assertion rules out. *)
Definition handleButtonClick (render : State) (button : ButtonConfig)
  : option Update :=
  match action button with
  | KDigit => Some (handleDigit render (label button))
  | KDecimal => Some (handleDecimal render)
  | KOperator =>
      match value button with
      | Some v =>
          match asOperator v with
          | Some op => Some (handleOperator render op)
          | None => None
          end
      | None => None
      end
  | KEqual => Some (handleEqual render)
  | KClear => Some clearAll
  | KDelete => Some (handleDelete render)
  end.

(** The no-break space that keeps the history line from collapsing. *)
Definition nbsp : string := String "160" "".

(** The history line:
    [previous && operator ? `${previous} ${operator}` : '\u00a0'].
    An empty [previous] is falsy. *)
Definition historyLabel (s : State) : string :=
  match previous s with
  | Some prev =>
      if isEmpty prev then nbsp
      else match operator s with
           | Some op => prev ++ " " ++ glyph op
           | None => nbsp
           end
  | None => nbsp
  end.

(** The last code unit of a string. *)
Fixpoint lastChar (s : string) : option ascii :=
  match s with
  | EmptyString => None
  | String a EmptyString => Some a
  | String _ r => lastChar r
  end.

(** The digits of a list of digit keys, side by side. *)
Fixpoint labels (ds : list Digit) : string :=
  match ds with
  | [] => EmptyString
  | d :: r => String (digitChar d) (labels r)
  end.

End Keypad.

(* ================================================================== *)
(** * Properties *)

Import JSString JSNumber Calc.
(** ** Facts about the string primitives *)

Section StringFacts.

Lemma length_app (a b : string) :
  String.length (a ++ b) = String.length a + String.length b.
Proof. induction a as [|c a IH]; simpl; [reflexivity | now rewrite IH]. Qed.

Lemma includes_app (c : ascii) (a b : string) :
  includes c (a ++ b) = includes c a || includes c b.
Proof.
  induction a as [|x a IH]; simpl; [reflexivity|].
  now rewrite IH, orb_assoc.
Qed.

Lemma all_app (p : ascii -> bool) (a b : string) :
  all p (a ++ b) = all p a && all p b.
Proof.
  induction a as [|x a IH]; simpl; [reflexivity|].
  now rewrite IH, andb_assoc.
Qed.

Lemma removeFirst_absent (c : ascii) (s : string) :
  includes c s = false -> removeFirst c s = s.
Proof.
  induction s as [|x s IH]; simpl; [reflexivity|].
  intros H. apply orb_false_iff in H as [Hx Hs].
  rewrite Hx. now rewrite IH.
Qed.

Lemma stripSign_absent (s : string) :
  includes "-" s = false -> stripSign s = s.
Proof.
  destruct s as [|x s]; [reflexivity|]. simpl.
  intros H. apply orb_false_iff in H as [Hx _].
  apply Ascii.eqb_neq in Hx.
  unfold stripSign.
  destruct x as [[] [] [] [] [] [] [] []]; try reflexivity.
  now elim Hx.
Qed.

Lemma sliceInit_length (s : string) :
  String.length (sliceInit s) = String.length s - 1.
Proof.
  induction s as [|x s IH]; [reflexivity|].
  destruct s as [|y s]; [reflexivity|].
  change (sliceInit (String x (String y s)))
    with (String x (sliceInit (String y s))).
  simpl String.length in *. rewrite IH. lia.
Qed.

Lemma sliceInit_includes (c : ascii) (s : string) :
  includes c s = false -> includes c (sliceInit s) = false.
Proof.
  induction s as [|x s IH]; [reflexivity|].
  destruct s as [|y s]; [reflexivity|].
  change (sliceInit (String x (String y s)))
    with (String x (sliceInit (String y s))).
  intros H. simpl in H. apply orb_false_iff in H as [Hx Hs].
  change (includes c (String x (sliceInit (String y s))))
    with (Ascii.eqb x c || includes c (sliceInit (String y s))).
  rewrite Hx. apply IH. exact Hs.
Qed.

Lemma sliceInit_all (p : ascii -> bool) (s : string) :
  all p s = true -> all p (sliceInit s) = true.
Proof.
  induction s as [|x s IH]; [reflexivity|].
  destruct s as [|y s]; [reflexivity|].
  change (sliceInit (String x (String y s)))
    with (String x (sliceInit (String y s))).
  intros H. simpl in H. apply andb_true_iff in H as [Hx Hs].
  change (all p (String x (sliceInit (String y s))))
    with (p x && all p (sliceInit (String y s))).
  rewrite Hx. apply IH. exact Hs.
Qed.

Lemma app_nonempty_l (a b : string) : a <> "" -> a ++ b <> "".
Proof. destruct a; [congruence | discriminate]. Qed.

Lemma app_cons_nonempty (a : string) (c : ascii) (b : string) :
  a ++ String c b <> "".
Proof. destruct a; discriminate. Qed.

Lemma eqb_empty_false (s : string) : s <> "" -> (s =? "") = false.
Proof. intros H. now apply String.eqb_neq. Qed.

End StringFacts.

(** ** Trimming *)

Section Trimming.

(** The three replacements leave a string without a point alone. *)
Lemma replaceDotZeros_nodot (s : string) :
  includes "." s = false -> replaceDotZeros s = s.
Proof.
  induction s as [|x s IH]; simpl; [reflexivity|].
  intros H. apply orb_false_iff in H as [Hx Hs].
  rewrite Hx. simpl. now rewrite IH.
Qed.

Lemma replaceFracZeros_nodot (s : string) :
  includes "." s = false -> replaceFracZeros s = s.
Proof.
  induction s as [|x s IH]; simpl; [reflexivity|].
  intros H. apply orb_false_iff in H as [Hx Hs].
  rewrite Hx. simpl. now rewrite IH.
Qed.

Lemma replaceTrailingDot_nodot (s : string) :
  includes "." s = false -> replaceTrailingDot s = s.
Proof.
  induction s as [|x s IH]; simpl; [reflexivity|].
  intros H. apply orb_false_iff in H as [Hx Hs].
  rewrite Hx. simpl. now rewrite IH.
Qed.

(** On [a.b] with the only point between [a] and [b], each
    replacement looks at [b] alone. *)
Lemma replaceDotZeros_split (a b : string) :
  includes "." a = false -> includes "." b = false ->
  replaceDotZeros (a ++ String "." b) =
  if zerosToEnd b then a else a ++ String "." b.
Proof.
  intros Ha Hb. induction a as [|x a IH]; simpl.
  - destruct (zerosToEnd b); [reflexivity|].
    now rewrite replaceDotZeros_nodot.
  - simpl in Ha. apply orb_false_iff in Ha as [Hx Ha].
    rewrite Hx. simpl. rewrite (IH Ha).
    now destruct (zerosToEnd b).
Qed.

Lemma replaceFracZeros_split (a b : string) :
  includes "." a = false -> includes "." b = false ->
  replaceFracZeros (a ++ String "." b) =
  if fracZerosToEnd b then a ++ String "." (dropTrailingZeros b)
  else a ++ String "." b.
Proof.
  intros Ha Hb. induction a as [|x a IH]; simpl.
  - destruct (fracZerosToEnd b); [reflexivity|].
    now rewrite replaceFracZeros_nodot.
  - simpl in Ha. apply orb_false_iff in Ha as [Hx Ha].
    rewrite Hx. simpl. rewrite (IH Ha).
    now destruct (fracZerosToEnd b).
Qed.

Lemma replaceTrailingDot_split (a b : string) :
  includes "." a = false -> includes "." b = false ->
  replaceTrailingDot (a ++ String "." b) =
  if isEmpty b then a else a ++ String "." b.
Proof.
  intros Ha Hb. induction a as [|x a IH]; simpl.
  - destruct b as [|y b]; [reflexivity|]. simpl isEmpty. cbv iota.
    now rewrite replaceTrailingDot_nodot.
  - simpl in Ha. apply orb_false_iff in Ha as [Hx Ha].
    rewrite Hx. simpl. rewrite (IH Ha).
    now destruct (isEmpty b).
Qed.

(** What is left once the final zeros are dropped. *)
Lemma dropTrailingZeros_nodot (s : string) :
  includes "." s = false -> includes "." (dropTrailingZeros s) = false.
Proof.
  induction s as [|x s IH]; [reflexivity|].
  intros H. simpl in H. apply orb_false_iff in H as [Hx Hs].
  cbn [dropTrailingZeros].
  destruct (all isZeroChar (String x s)); [reflexivity|].
  simpl. rewrite Hx. now apply IH.
Qed.

Lemma dropTrailingZeros_keeps_nonzero (s : string) :
  all isZeroChar s = false ->
  all isZeroChar (dropTrailingZeros s) = false.
Proof.
  induction s as [|x s IH]; [discriminate|].
  intros H. cbn [dropTrailingZeros]. rewrite H.
  simpl in *. destruct (isZeroChar x); simpl in *; [|reflexivity].
  now apply IH.
Qed.

Lemma dropTrailingZeros_all_zero (s : string) :
  all isZeroChar s = true -> dropTrailingZeros s = "".
Proof.
  destruct s as [|x s]; [reflexivity|].
  intros H. cbn [dropTrailingZeros]. now rewrite H.
Qed.

Lemma dropTrailingZeros_no_final_zero (s : string) :
  endsWithZero (dropTrailingZeros s) = false.
Proof.
  induction s as [|x s IH]; [reflexivity|].
  cbn [dropTrailingZeros].
  destruct (all isZeroChar (String x s)) eqn:Hall; [reflexivity|].
  destruct (dropTrailingZeros s) as [|y t] eqn:Hd.
  - (* [s] is all zeros, so [x] is not one *)
    simpl. simpl in Hall.
    destruct (isZeroChar x); [|reflexivity]. simpl in Hall.
    destruct (all isZeroChar s) eqn:Hs; [discriminate|].
    apply dropTrailingZeros_keeps_nonzero in Hs.
    rewrite Hd in Hs. discriminate.
  - exact IH.
Qed.

Lemma zerosToEnd_false_of_nonzero (s : string) :
  all isZeroChar s = false -> zerosToEnd s = false.
Proof. intros H. unfold zerosToEnd. rewrite H. apply andb_false_r. Qed.

Lemma trimTrailingZeros_nodot (x : string) :
  includes "." x = false -> trimTrailingZeros x = x.
Proof. intros H. unfold trimTrailingZeros. now rewrite H. Qed.

Lemma includes_split (a b : string) :
  includes "." (a ++ String "." b) = true.
Proof. rewrite includes_app. simpl. apply orb_true_r. Qed.

(** The value of [trimTrailingZeros] on [a.b]. *)
Lemma trimTrailingZeros_split (a b : string) :
  includes "." a = false -> includes "." b = false ->
  trimTrailingZeros (a ++ String "." b) =
  if zerosToEnd b || isEmpty b then
    (if a =? "" then initialCurrent else a)
  else if fracZerosToEnd b then a ++ String "." (dropTrailingZeros b)
  else a ++ String "." b.
Proof.
  intros Ha Hb. unfold trimTrailingZeros.
  rewrite includes_split. cbn [negb].
  rewrite (replaceDotZeros_split a b Ha Hb).
  destruct (zerosToEnd b) eqn:Hz.
  - rewrite (replaceFracZeros_nodot a Ha), (replaceTrailingDot_nodot a Ha).
    reflexivity.
  - cbn [orb]. rewrite (replaceFracZeros_split a b Ha Hb).
    destruct (fracZerosToEnd b) eqn:Hf.
    + assert (Hnz : all isZeroChar b = false).
      { unfold fracZerosToEnd in Hf.
        apply andb_true_iff in Hf as [_ Hf].
        now apply negb_true_iff in Hf. }
      assert (He : isEmpty b = false) by (destruct b; [discriminate | reflexivity]).
      rewrite He.
      rewrite (replaceTrailingDot_split a _ Ha (dropTrailingZeros_nodot b Hb)).
      apply dropTrailingZeros_keeps_nonzero in Hnz.
      destruct (dropTrailingZeros b) as [|y t]; [discriminate|].
      cbn [isEmpty].
      now rewrite (eqb_empty_false _ (app_cons_nonempty a "." (String y t))).
    + rewrite (replaceTrailingDot_split a b Ha Hb).
      destruct (isEmpty b); [reflexivity|].
      now rewrite (eqb_empty_false _ (app_cons_nonempty a "." b)).
Qed.

Lemma count_zero_includes (c : ascii) (s : string) :
  count c s = 0 -> includes c s = false.
Proof.
  induction s as [|x s IH]; [reflexivity|]. simpl.
  destruct (Ascii.eqb x c); [discriminate|]. exact IH.
Qed.

(** A string with exactly one point is [a.b] with no point in [a]
    nor in [b]. *)
Lemma count_one_split (s : string) :
  count "." s = 1 ->
  exists a b, s = a ++ String "." b /\
              includes "." a = false /\ includes "." b = false.
Proof.
  induction s as [|x s IH]; [discriminate|]. simpl.
  destruct (Ascii.eqb x ".") eqn:Hx.
  - intros H. apply Ascii.eqb_eq in Hx. subst x.
    exists "", s. repeat split.
    apply count_zero_includes. lia.
  - intros H. destruct (IH H) as (a & b & -> & Ha & Hb).
    exists (String x a), b. repeat split; [|assumption].
    simpl. now rewrite Hx.
Qed.

(** Trimming twice is trimming once, for every string with at most
    one decimal point. *)
Lemma trimTrailingZeros_idempotent_one_point (x : string) :
  count "." x <= 1 ->
  trimTrailingZeros (trimTrailingZeros x) = trimTrailingZeros x.
Proof.
  intros Hc.
  assert (Hcases : count "." x = 0 \/ count "." x = 1) by lia.
  destruct Hcases as [H0 | H1].
  - apply count_zero_includes in H0.
    now rewrite !(trimTrailingZeros_nodot x H0).
  - destruct (count_one_split x H1) as (a & b & -> & Ha & Hb).
    rewrite (trimTrailingZeros_split a b Ha Hb).
    destruct (zerosToEnd b || isEmpty b) eqn:Hz.
    + apply trimTrailingZeros_nodot.
      destruct (a =? ""); [reflexivity | exact Ha].
    + apply orb_false_iff in Hz as [Hz He].
      destruct (fracZerosToEnd b) eqn:Hf.
      * assert (Hnz : all isZeroChar b = false).
        { unfold fracZerosToEnd in Hf.
          apply andb_true_iff in Hf as [_ Hf].
          now apply negb_true_iff in Hf. }
        pose proof (dropTrailingZeros_keeps_nonzero b Hnz) as Hnz'.
        rewrite (trimTrailingZeros_split a _ Ha (dropTrailingZeros_nodot b Hb)).
        rewrite (zerosToEnd_false_of_nonzero _ Hnz').
        assert (He' : isEmpty (dropTrailingZeros b) = false).
        { destruct (dropTrailingZeros b); [discriminate | reflexivity]. }
        rewrite He'. cbn [orb].
        unfold fracZerosToEnd at 1.
        rewrite dropTrailingZeros_no_final_zero.
        now rewrite andb_false_r.
      * rewrite (trimTrailingZeros_split a b Ha Hb), Hz, He, Hf.
        reflexivity.
Qed.

Lemma trimTrailingZeros_nonempty (x : string) :
  x <> "" -> trimTrailingZeros x <> "".
Proof.
  intros Hx. unfold trimTrailingZeros.
  destruct (includes "." x); cbn [negb]; [|exact Hx].
  destruct (_ =? "") eqn:He; [discriminate|].
  now apply String.eqb_neq in He.
Qed.

End Trimming.

(** ** Results of [compute] *)

Section Results.

Lemma decimal_nonempty (n : Z) : decimal n <> "".
Proof.
  unfold decimal. destruct (Z.to_N n) as [|p]; [discriminate|].
  simpl. pose proof (Unsigned.to_uint_nonnil p) as Hp.
  destruct (Pos.to_uint p); [congruence | discriminate ..].
Qed.

Lemma layout_nonempty (ds : string) (n : Z) :
  ds <> "" -> layout ds n <> "".
Proof.
  intros Hds. unfold layout.
  repeat match goal with
         | |- context [if ?c then _ else _] => destruct c
         end.
  - now apply app_nonempty_l.
  - apply app_cons_nonempty.
  - discriminate.
  - now apply app_nonempty_l.
  - apply app_cons_nonempty.
Qed.

Lemma toStringPositive_nonempty (m : positive) (e : Z) :
  toStringPositive m e <> "".
Proof.
  unfold toStringPositive.
  destruct (shortest _ _ _ _ _ _) as [s k].
  destruct (s =? 10 ^ k)%Z; apply layout_nonempty;
    [discriminate | apply decimal_nonempty].
Qed.

Lemma toString_nonempty (x : Number) : toString x <> "".
Proof.
  destruct x as [s | s | | s m e]; simpl; try discriminate.
  - destruct s; discriminate.
  - destruct s; simpl; [discriminate | apply toStringPositive_nonempty].
Qed.

Lemma formatResult_nonempty (value : Number) : formatResult value <> "".
Proof.
  unfold formatResult.
  destruct (negb _); [discriminate|].
  apply trimTrailingZeros_nonempty, toString_nonempty.
Qed.

Lemma compute_nonempty (a b : string) (op : Operator) :
  compute a b op <> "".
Proof.
  unfold compute.
  destruct (_ || _); [discriminate|].
  destruct (_ && _); [discriminate|].
  apply formatResult_nonempty.
Qed.

End Results.

(** ** The handlers *)

Section Handlers.

Lemma label_no_minus (d : Digit) : includes "-" (label d) = false.
Proof. now destruct d. Qed.

Lemma label_typed (d : Digit) : typed (label d).
Proof. now destruct d. Qed.

(** Outside the error state the reset at the head of a handler does
    nothing. *)
Lemma resetIfError_skip (s : State) :
  current s <> "Error" -> resetIfError s = done.
Proof.
  intros H. unfold resetIfError.
  apply String.eqb_neq in H. now rewrite H.
Qed.

(** Induction over the clicks of a session. *)
Lemma run_invariant (P : State -> Prop) :
  (forall s b, P s -> P (click b s)) ->
  forall buttons s, P s -> P (run buttons s).
Proof.
  intros Hstep buttons.
  induction buttons as [|b buttons IH]; intros s Hs; [exact Hs|].
  simpl. apply IH, Hstep, Hs.
Qed.

End Handlers.

(** Unfold one click down to the setters. *)
Ltac unfold_click :=
  unfold click, handleButtonClick, handleDigit, handleDecimal,
    handleOperator, handleEqual, handleDelete, resetIfError, clearAll,
    andThen, done, setCurrent, setPrevious, setOperator, setOverwrite;
  cbn [current previous operator overwrite].

(** Split on the tests a handler makes, innermost first. *)
Ltac split_tests :=
  repeat match goal with
         | |- context [if ?c then _ else _] =>
             lazymatch c with
             | context [if _ then _ else _] => fail
             | context [match _ with Some _ => _ | None => _ end] => fail
             | _ => idtac
             end;
             let E := fresh "E" in destruct c eqn:E;
             cbn [current previous operator overwrite]
         | |- context [match ?o with Some _ => _ | None => _ end] =>
             lazymatch o with
             | context [if _ then _ else _] => fail
             | _ => idtac
             end;
             let E := fresh "E" in destruct o eqn:E;
             cbn [current previous operator overwrite]
         end.

(** ** The length cap *)

Section Bounded.

Lemma bounded_initial : bounded initialState.
Proof. unfold bounded, MAX_LENGTH. simpl. split; [reflexivity | lia]. Qed.

Lemma typed_bound_after_guard (next : string) :
  includes "-" next = false ->
  (MAX_LENGTH <? String.length (removeFirst "-" next))%nat = false ->
  includes "-" next = false /\ String.length next <= MAX_LENGTH.
Proof.
  intros Hm Hg. split; [exact Hm|].
  rewrite (removeFirst_absent _ _ Hm) in Hg.
  now apply Nat.ltb_ge in Hg.
Qed.

Lemma typed_bound_keep (c : string) :
  includes "-" c = false /\ String.length c <= MAX_LENGTH ->
  String.length (stripSign c) <= MAX_LENGTH \/ isResult c.
Proof. intros [Hm Hl]. left. now rewrite stripSign_absent. Qed.

Lemma typed_bound_slice (c : string) :
  includes "-" c = false /\ String.length c <= MAX_LENGTH ->
  includes "-" (sliceInit c) = false /\
  String.length (sliceInit c) <= MAX_LENGTH.
Proof.
  intros [Hm Hl]. split; [now apply sliceInit_includes|].
  rewrite sliceInit_length. lia.
Qed.

Lemma typed_bound_append (c t : string) :
  includes "-" c = false -> includes "-" t = false ->
  (MAX_LENGTH <? String.length (removeFirst "-" (c ++ t)))%nat = false ->
  includes "-" (c ++ t) = false /\ String.length (c ++ t) <= MAX_LENGTH.
Proof.
  intros Hc Ht. apply typed_bound_after_guard.
  now rewrite includes_app, Hc, Ht.
Qed.

Lemma click_bounded (s : State) (b : Action) :
  bounded s -> bounded (click b s).
Proof.
  destruct s as [c p o w]. unfold bounded. cbn [current overwrite].
  destruct b as [d | | op | | |]; unfold_click; intros H;
    destruct w; cbn [orb] in *; split_tests;
    repeat match goal with
           | E : (_ =? _) = true |- _ => apply String.eqb_eq in E; subst
           end;
    first
      [ exact H
      | right; do 3 eexists; reflexivity
      | apply typed_bound_keep; exact H
      | apply typed_bound_slice; exact H
      | apply typed_bound_append;
        [ apply H || reflexivity | apply label_no_minus || reflexivity
        | assumption ]
      | split; [ apply label_no_minus || reflexivity
               | unfold MAX_LENGTH; simpl; lia ]
      | left; unfold MAX_LENGTH; simpl; lia ].
Qed.

Lemma run_bounded (buttons : list Action) :
  bounded (run buttons initialState).
Proof.
  apply run_invariant; [exact click_bounded | exact bounded_initial].
Qed.

End Bounded.

(** ** Operands under edit *)

Section Operands.

Lemma typed_not_error (c : string) : typed c -> c <> "Error".
Proof. intros H ->. discriminate H. Qed.

Lemma typed_append (c t : string) : typed c -> typed t -> typed (c ++ t).
Proof. unfold typed. intros Hc Ht. now rewrite all_app, Hc, Ht. Qed.

Lemma sliceInit_nonempty (c : string) :
  (String.length c <=? 1)%nat = false -> sliceInit c <> "".
Proof.
  intros H. apply Nat.leb_gt in H.
  destruct c as [|x [|y c]]; simpl in H; try lia. discriminate.
Qed.

(** Editing keys keep a pending operation pending. *)
Lemma click_awaiting (a : string) (op : Operator) (s : State) (b : Action) :
  isTyping b = true -> awaiting a op s -> awaiting a op (click b s).
Proof.
  destruct s as [c p o w]. unfold awaiting. cbn [current previous operator overwrite].
  intros Hb (Hp & Ho & Hc).
  assert (Hne : (c =? "Error") = false).
  { apply String.eqb_neq. destruct w; [exact Hc | now apply typed_not_error]. }
  destruct b as [d | | | | |]; try discriminate Hb;
    unfold_click; rewrite Hne; destruct w; cbn [orb]; split_tests;
    repeat match goal with
           | E : (_ =? _) = true |- _ => apply String.eqb_eq in E; subst
           end;
    repeat split; try assumption; try reflexivity;
    first [ discriminate
          | apply label_typed
          | apply typed_append; [assumption | apply label_typed || reflexivity]
          | now apply sliceInit_all ].
Qed.

Lemma run_awaiting (a : string) (op : Operator) (buttons : list Action) :
  forallb isTyping buttons = true ->
  forall s, awaiting a op s -> awaiting a op (run buttons s).
Proof.
  induction buttons as [|b buttons IH]; intros Hall s Hs; [exact Hs|].
  simpl in Hall. apply andb_true_iff in Hall as [Hb Hall].
  simpl. apply IH; [exact Hall|]. now apply click_awaiting.
Qed.

Lemma awaiting_not_error (a : string) (op : Operator) (s : State) :
  awaiting a op s -> current s <> "Error".
Proof.
  intros (_ & _ & H). destruct (overwrite s); [exact H|].
  now apply typed_not_error.
Qed.

(** The display is never blank. *)
Lemma click_nonempty (s : State) (b : Action) :
  current s <> "" -> current (click b s) <> "".
Proof.
  destruct s as [c p o w]. cbn [current]. intros H.
  destruct b as [d | | op | | |]; unfold_click; split_tests;
    first [ exact H | discriminate | apply compute_nonempty
          | apply app_cons_nonempty | now apply sliceInit_nonempty
          | idtac ].
  all: repeat match goal with
           | E : (_ =? _) = false |- _ => apply String.eqb_neq in E
           end; assumption.
Qed.

(** Operator and previous operand are set and cleared together. *)
Lemma click_paired (s : State) (b : Action) :
  paired s -> paired (click b s).
Proof.
  destruct s as [c p o w]. unfold paired, present.
  cbn [previous operator]. intros H.
  destruct b as [d | | op | | |]; unfold_click; split_tests;
    first [ exact H | split; intros; congruence ].
Qed.

Lemma paired_initial : paired initialState.
Proof. unfold paired, present. simpl. split; intros; congruence. Qed.

End Operands.

(** ** The error state *)

Section ErrorState.

(** While an operand is under edit it consists of digits and points. *)
Lemma click_typed_under_edit (s : State) (b : Action) :
  (overwrite s = false -> typed (current s)) ->
  overwrite (click b s) = false -> typed (current (click b s)).
Proof.
  destruct s as [c p o w]. cbn [current overwrite]. intros H.
  assert (Hne : w = false -> (c =? "Error") = false).
  { intros Hw. apply String.eqb_neq, typed_not_error, H, Hw. }
  destruct b as [d | | op | | |]; unfold_click;
    destruct w; cbn [orb];
    try rewrite (Hne eq_refl); split_tests;
    repeat match goal with
           | E : (_ =? _) = true |- _ => apply String.eqb_eq in E; subst
           end;
    intros Hw; try discriminate Hw;
    first [ reflexivity
          | apply label_typed
          | apply typed_append;
            [now apply H | apply label_typed || reflexivity]
          | apply sliceInit_all; now apply H
          | now apply H ].
Qed.

Lemma run_typed_under_edit (buttons : list Action) :
  overwrite (run buttons initialState) = false ->
  typed (current (run buttons initialState)).
Proof.
  apply (run_invariant (fun s => overwrite s = false -> typed (current s)));
    [exact click_typed_under_edit | reflexivity].
Qed.

(** The error sentinel only ever appears with [overwrite] set. *)
Lemma error_state_overwrites (buttons : list Action) :
  current (run buttons initialState) = "Error" ->
  overwrite (run buttons initialState) = true.
Proof.
  intros He. destruct (overwrite _) eqn:Hw; [reflexivity|].
  apply run_typed_under_edit in Hw. rewrite He in Hw. discriminate Hw.
Qed.

(** An operator key in the error state stores the stale sentinel. *)
Lemma operator_in_error_state (s : State) (nextOp : Operator) :
  current s = "Error" -> overwrite s = true ->
  click (AOperator nextOp) s =
  mkState "0" (Some "Error") (Some nextOp) true.
Proof.
  destruct s as [c p o w]. cbn [current overwrite]. intros -> ->.
  unfold_click. cbn. now destruct o, p.
Qed.

(** [=] in the error state with an operation pending evaluates the
    stale operands again. *)
Lemma equal_in_error_state (s : State) (op : Operator) (prev : string) :
  current s = "Error" -> operator s = Some op -> previous s = Some prev ->
  click AEqual s = mkState "Error" None None true.
Proof.
  destruct s as [c p o w]. cbn [current previous operator].
  intros -> -> ->. unfold_click. cbn.
  assert (H : compute prev "Error" op = "Error").
  { unfold compute. cbn. now rewrite orb_true_r. }
  now rewrite H.
Qed.

End ErrorState.

(** ** The model on known values *)

Section KnownValues.

Example parseFloat_tenth :
  parseFloat "0.1" = S754_finite false 7205759403792794 (-56).
Proof. vm_compute. reflexivity. Qed.

Example parseFloat_prefix : toString (parseFloat "  -12.5e1px") = "-125".
Proof. vm_compute. reflexivity. Qed.

Example parseFloat_sentinel : parseFloat "Error" = S754_nan.
Proof. vm_compute. reflexivity. Qed.

Example toString_sum :
  toString (add (parseFloat "0.1") (parseFloat "0.2")) = "0.30000000000000004".
Proof. vm_compute. reflexivity. Qed.

Example toString_large : toString (parseFloat "1e21") = "1e+21".
Proof. vm_compute. reflexivity. Qed.

Example toString_small : toString (parseFloat "0.00000015") = "1.5e-7".
Proof. vm_compute. reflexivity. Qed.

Example toString_max :
  toString (parseFloat "1.7976931348623157e308") = "1.7976931348623157e+308".
Proof. vm_compute. reflexivity. Qed.

Example toFixed_two_thirds :
  toFixed (div (parseFloat "2") (parseFloat "3")) 10 = "0.6666666667".
Proof. vm_compute. reflexivity. Qed.

Example toFixed_binary_tie : toFixed (parseFloat "1.005") 2 = "1.00".
Proof. vm_compute. reflexivity. Qed.

Example toFixed_tiny_negative : toFixed (parseFloat "-1e-11") 10 = "-0.0000000000".
Proof. vm_compute. reflexivity. Qed.

Example compute_suppresses_noise : compute "0.1" "0.2" Add = "0.3".
Proof. vm_compute. reflexivity. Qed.

Example compute_overflow : compute "1e308" "10" Multiply = "Error".
Proof. vm_compute. reflexivity. Qed.

(** The scenarios of the specification. *)
Example scenario_add :
  current (run [ADigit D2; AOperator Add; ADigit D3; AEqual] initialState) = "5".
Proof. vm_compute. reflexivity. Qed.

Example scenario_divide_by_zero :
  current (run divideByZero initialState) = "Error".
Proof. vm_compute. reflexivity. Qed.

Example scenario_chain :
  current (run [ADigit D2; AOperator Add; ADigit D3; AOperator Multiply;
                ADigit D4; AEqual] initialState) = "20".
Proof. vm_compute. reflexivity. Qed.

Example scenario_trim :
  current (run [ADigit D1; ADecimal; ADigit D5; AOperator Add;
                ADigit D2; ADecimal; ADigit D5; AEqual] initialState) = "4".
Proof. vm_compute. reflexivity. Qed.

Example scenario_clear (s : State) : click AClear s = initialState.
Proof. reflexivity. Qed.

End KnownValues.

(** ** The claims of the specification *)

(** C1: every handler but [clearAll] starts with [resetIfError], yet
    goes on reading the state of the render it runs in.  After
    [1 ÷ 0 =] the display holds ["Error"]; an operator key pressed then
    stores that stale ["Error"] as the previous operand, where the same
    key pressed on the initial state stores ["0"]. *)
Theorem operator_after_error_keeps_sentinel :
  run divideByZero initialState = mkState "Error" None None true /\
  click (AOperator Add) (run divideByZero initialState) =
    mkState "0" (Some "Error") (Some Add) true /\
  click (AOperator Add) initialState =
    mkState "0" (Some "0") (Some Add) true.
Proof. repeat split; vm_compute; reflexivity. Qed.

(** In the error states a session reaches ([overwrite] is set there,
    see [error_state_overwrites]) the digit, decimal and delete keys,
    and [=] with nothing pending, do act as on the initial state. *)
Lemma error_reset_agrees (s : State) (b : Action) :
  current s = "Error" -> overwrite s = true ->
  match b with
  | AOperator _ => False
  | AEqual => operator s = None \/ previous s = None
  | _ => True
  end ->
  click b s = click b initialState.
Proof.
  destruct s as [c p o w]. cbn [current previous operator overwrite].
  intros -> -> Hb.
  destruct b as [d | | op | | |].
  - now destruct d.
  - reflexivity.
  - contradiction.
  - destruct Hb as [-> | ->]; [reflexivity | now destruct o].
  - reflexivity.
  - reflexivity.
Qed.

(** C2, as stated: the sign-stripped display never exceeds 18
    characters.  It fails on [1000000000 × 1000000000 =], whose result
    ["1000000000000000000"] has 19. *)
Lemma current_length_exceeds_cap :
  ~ (forall buttons : list Action,
       String.length (stripSign (current (run buttons initialState))) <= 18).
Proof.
  intros H. specialize (H billionSquared).
  vm_compute in H. lia.
Qed.

(** A digit, delete or clear key always leaves an operand under
    edit. *)
Lemma click_starts_edit (s : State) (b : Action) :
  match b with ADigit _ | ADelete | AClear => True | _ => False end ->
  overwrite (click b s) = false.
Proof.
  destruct s as [c p o w]. intros Hb.
  destruct b as [d | | | | |]; try contradiction; unfold_click;
    destruct w; cbn [orb]; try (destruct d); split_tests;
    first [ reflexivity
          | match goal with
            | E : (MAX_LENGTH <? _)%nat = true |- _ => discriminate E
            end ].
Qed.

(** The decimal key is not one of them: on a result that already has
    a point it returns before looking at [overwrite], and the result
    stays.  After [123456789012345678 * 987654321098765432 =] that is
    the 21 characters of ["1.219326311370218e+35"]. *)
Lemma decimal_keeps_long_result :
  click ADecimal
        (mkState (compute "123456789012345678" "987654321098765432" Multiply)
                 None None true) =
  mkState "1.219326311370218e+35" None None true.
Proof. vm_compute. reflexivity. Qed.

(** C2, amended: after every sequence of clicks the sign-stripped
    display has at most 18 characters unless it is a value [compute]
    returned and [overwrite] is set; and right after a digit, delete or
    clear key it has at most 18 characters in every case. *)
Theorem current_length_capped_unless_result :
  forall buttons : list Action,
    let s := run buttons initialState in
    (String.length (stripSign (current s)) <= 18 \/
     (overwrite s = true /\ isResult (current s))) /\
    (forall b : Action,
        match b with ADigit _ | ADelete | AClear => True | _ => False end ->
        String.length (stripSign (current (click b s))) <= 18).
Proof.
  intros buttons s. pose proof (run_bounded buttons) as H. fold s in H.
  split.
  - unfold bounded, MAX_LENGTH in H.
    destruct (overwrite s).
    + destruct H as [H | H]; [now left | now right].
    + left. destruct H as [Hm Hl]. now rewrite stripSign_absent.
  - intros b Hb.
    pose proof (click_bounded s b H) as Hc.
    unfold bounded, MAX_LENGTH in Hc.
    rewrite (click_starts_edit s b Hb) in Hc.
    destruct Hc as [Hm Hl]. now rewrite stripSign_absent.
Qed.

(** C3: outside the error state, an operator key first collapses a
    pending operation whose right operand has been typed, otherwise
    copies the display into [previous]; either way it becomes the
    pending operator and sets [overwrite]. *)
Theorem operator_collapses_or_copies :
  forall (s : State) (nextOp : Operator),
    current s <> "Error" ->
    click (AOperator nextOp) s =
    match operator s, previous s, overwrite s with
    | Some op, Some prev, false =>
        let result := compute prev (current s) op in
        mkState result (Some result) (Some nextOp) true
    | _, _, _ => mkState (current s) (Some (current s)) (Some nextOp) true
    end.
Proof.
  intros s nextOp H. unfold click, handleButtonClick, handleOperator.
  rewrite (resetIfError_skip s H).
  destruct s as [c p o w]. cbn [current previous operator overwrite].
  destruct o, p, w; reflexivity.
Qed.

Lemma operator_collapses_or_copies_witness :
  current (mkState "3" (Some "2") (Some Add) false) <> "Error" /\
  click (AOperator Multiply) (mkState "3" (Some "2") (Some Add) false) =
  mkState "5" (Some "5") (Some Multiply) true.
Proof.
  split; [discriminate|].
  rewrite (operator_collapses_or_copies
             (mkState "3" (Some "2") (Some Add) false) Multiply);
    [reflexivity | discriminate].
Defined.

(** C4: outside the error state, [=] does nothing when no operator is
    pending; with [prev op] pending it displays
    [compute prev current op], clears the pending operation and sets
    [overwrite].  Hence one operator key on [a], any typing, then [=]
    shows [compute a b op] for the operand [b] typed. *)
Theorem equal_evaluates_pending :
  forall s : State,
    current s <> "Error" ->
    (operator s = None -> click AEqual s = s) /\
    (forall op prev,
        operator s = Some op -> previous s = Some prev ->
        click AEqual s =
        mkState (compute prev (current s) op) None None true) /\
    (forall op typing,
        operator s = None -> forallb isTyping typing = true ->
        let s2 := run typing (click (AOperator op) s) in
        click AEqual s2 =
        mkState (compute (current s) (current s2) op) None None true).
Proof.
  intros s H.
  assert (Hpending : forall t op prev,
             current t <> "Error" ->
             operator t = Some op -> previous t = Some prev ->
             click AEqual t =
             mkState (compute prev (current t) op) None None true).
  { intros t op prev Ht Ho Hp. unfold click, handleButtonClick, handleEqual.
    rewrite (resetIfError_skip t Ht), Ho, Hp. reflexivity. }
  split; [|split].
  - intros Ho. unfold click, handleButtonClick, handleEqual.
    rewrite (resetIfError_skip s H), Ho. reflexivity.
  - intros op prev. now apply Hpending.
  - intros op typing Ho Htyping s2.
    assert (Hs2 : awaiting (current s) op s2).
    { apply run_awaiting; [exact Htyping|].
      unfold click, handleButtonClick, handleOperator.
      rewrite (resetIfError_skip s H), Ho.
      unfold awaiting. cbn. auto. }
    apply Hpending; [now apply (awaiting_not_error _ _ _ Hs2) | apply Hs2 ..].
Qed.

Lemma equal_evaluates_pending_witness :
  current (mkState "2" None None false) <> "Error" /\
  click AEqual
    (run [ADigit D3] (click (AOperator Add) (mkState "2" None None false))) =
  mkState (compute "2" "3" Add) None None true.
Proof.
  split; [discriminate|].
  apply (proj2 (proj2 (equal_evaluates_pending
                         (mkState "2" None None false)
                         ltac:(discriminate))) Add [ADigit D3]);
    reflexivity.
Defined.

(** C5: dividing by an operand that parses to zero yields the error
    sentinel, whatever the dividend. *)
Theorem divide_by_zero_is_error :
  forall a b : string,
    isZero (parseFloat b) = true -> compute a b Divide = "Error".
Proof.
  intros a b Hz. unfold compute.
  destruct (negb (isFinite (parseFloat a)) || negb (isFinite (parseFloat b)));
    [reflexivity|].
  rewrite Hz. reflexivity.
Qed.

Lemma divide_by_zero_is_error_witness :
  isZero (parseFloat "0.00") = true /\ compute "Error" "0.00" Divide = "Error".
Proof.
  split; [reflexivity|].
  apply (divide_by_zero_is_error "Error" "0.00"). reflexivity.
Defined.

Lemma stripSign_cons (x : ascii) (r : string) :
  stripSign (String x r) = if Ascii.eqb x "-" then r else String x r.
Proof. now destruct x as [[] [] [] [] [] [] [] []]. Qed.

(** Removing the first minus sign and leaving out a leading one are
    the same thing when the only minus sign stands in front. *)
Lemma removeFirst_leading_minus (c t : string) :
  includes "-" (stripSign c) = false -> includes "-" t = false ->
  removeFirst "-" (c ++ t) = stripSign (c ++ t).
Proof.
  intros Hc Ht. destruct c as [|x r].
  - cbn [append]. now rewrite removeFirst_absent, stripSign_absent.
  - change (String x r ++ t) with (String x (r ++ t)).
    rewrite stripSign_cons in *. cbn [removeFirst].
    destruct (Ascii.eqb x "-") eqn:Ex; [reflexivity|].
    fold (removeFirst "-" (r ++ t)).
    simpl in Hc. rewrite Ex in Hc. simpl in Hc.
    rewrite removeFirst_absent; [reflexivity|].
    now rewrite includes_app, Hc, Ht.
Qed.

(** C6: in every state other than the error state whose operand under
    edit has a minus sign, if any, only in front, a digit key replaces
    the display when [overwrite] is set or the display is ["0"], and
    appends otherwise; it does nothing when the new operand, its
    leading minus sign left out, would pass 18 characters; and it
    clears [overwrite]. *)
Theorem digit_replaces_or_appends :
  forall (s : State) (d : Digit),
    current s <> "Error" ->
    (overwrite s = false -> includes "-" (stripSign (current s)) = false) ->
    click (ADigit d) s = digitSpec d s.
Proof.
  intros s d H Hm. unfold click, handleButtonClick, handleDigit, digitSpec.
  rewrite (resetIfError_skip s H).
  unfold MAX_LENGTH, initialCurrent, andThen, done.
  set (next := if overwrite s || (current s =? "0") then label d
               else current s ++ label d).
  assert (Hnext : removeFirst "-" next = stripSign next).
  { subst next.
    assert (Hd : removeFirst "-" (label d) = stripSign (label d))
      by now destruct d.
    destruct (overwrite s); cbn [orb]; [exact Hd|].
    destruct (current s =? "0"); [exact Hd|].
    apply removeFirst_leading_minus; [now apply Hm | apply label_no_minus]. }
  rewrite Hnext.
  destruct (18 <? String.length (stripSign next))%nat; [reflexivity|].
  assert (Hne : (next =? "") = false).
  { subst next. destruct (overwrite s || (current s =? "0")); [reflexivity|].
    apply eqb_empty_false, app_cons_nonempty. }
  rewrite Hne. destruct s as [c p o w]. now destruct w.
Qed.

(** A negative operand of seventeen digits still takes one more: the
    sign does not count against the cap. *)
Lemma digit_replaces_or_appends_witness :
  current (mkState "-12345678901234567" None None false) <> "Error" /\
  (overwrite (mkState "-12345678901234567" None None false) = false ->
   includes "-"
     (stripSign (current (mkState "-12345678901234567" None None false)))
   = false) /\
  click (ADigit D8) (mkState "-12345678901234567" None None false) =
  mkState "-123456789012345678" None None false.
Proof.
  split; [discriminate|]. split; [reflexivity|].
  rewrite (digit_replaces_or_appends
             (mkState "-12345678901234567" None None false) D8);
    [reflexivity | discriminate | reflexivity].
Defined.

(** Every state of a session meets the condition on the minus sign:
    an operand under edit there has none at all. *)
Lemma session_minus_only_in_front (buttons : list Action) :
  overwrite (run buttons initialState) = false ->
  includes "-" (stripSign (current (run buttons initialState))) = false.
Proof.
  intros Hw. pose proof (run_bounded buttons) as Hb.
  unfold bounded in Hb. rewrite Hw in Hb. destruct Hb as [Hm _].
  now rewrite stripSign_absent.
Qed.

(** C7: the big display line shows [current], except that the empty
    string and the sentinel ["Error"] show as ["0"]. *)
Theorem displayValue_hides_empty_and_error :
  forall s : string,
    displayValue s = if (s =? "") || (s =? "Error") then "0" else s.
Proof.
  intros s. unfold displayValue, sanitizeNumber, initialCurrent.
  destruct (s =? "Error"); [now rewrite orb_true_r|].
  rewrite orb_false_r. reflexivity.
Qed.

(** C8: trimming trailing zeros is idempotent on decimal strings. *)
Theorem trimTrailingZeros_idempotent :
  forall x : string,
    isDecimalString x = true ->
    trimTrailingZeros (trimTrailingZeros x) = trimTrailingZeros x.
Proof.
  intros x H. apply trimTrailingZeros_idempotent_one_point.
  unfold isDecimalString in H. apply andb_true_iff in H as [_ H].
  now apply Nat.leb_le in H.
Qed.

Lemma trimTrailingZeros_idempotent_witness :
  isDecimalString "-12.500" = true /\
  trimTrailingZeros (trimTrailingZeros "-12.500") = trimTrailingZeros "-12.500".
Proof.
  split; [reflexivity|].
  apply (trimTrailingZeros_idempotent "-12.500"). reflexivity.
Defined.

(** C9: every click preserves "operator present iff previous operand
    present", so it holds in every state of a session. *)
Theorem operator_present_iff_previous :
  (forall (s : State) (b : Action), paired s -> paired (click b s)) /\
  (forall buttons : list Action, paired (run buttons initialState)).
Proof.
  split; [exact click_paired|].
  intros buttons.
  apply run_invariant; [exact click_paired | exact paired_initial].
Qed.

(** C10: the display string is never empty in a session. *)
Theorem current_never_empty :
  forall buttons : list Action, current (run buttons initialState) <> "".
Proof.
  intros buttons.
  apply (run_invariant (fun s => current s <> ""));
    [exact click_nonempty | discriminate].
Qed.

(* ================================================================== *)
(** * Further properties of the handlers and helpers *)

(** ** Decimal points *)

Section Points.

Lemma count_app (c : ascii) (a b : string) :
  count c (a ++ b) = count c a + count c b.
Proof.
  induction a as [|x a IH]; simpl; [reflexivity|]. rewrite IH. lia.
Qed.

Lemma includes_count_zero (c : ascii) (s : string) :
  includes c s = false -> count c s = 0.
Proof.
  induction s as [|x s IH]; simpl; [reflexivity|].
  intros H. apply orb_false_iff in H as [Hx Hs].
  rewrite Hx. now apply IH.
Qed.

Lemma digits_no_point (s : string) :
  all isDigit s = true -> includes "." s = false.
Proof.
  induction s as [|x s IH]; simpl; [reflexivity|].
  intros H. apply andb_true_iff in H as [Hx Hs].
  rewrite (IH Hs), orb_false_r.
  apply Ascii.eqb_neq. intros ->. discriminate Hx.
Qed.

Lemma string_of_uint_digits (d : Decimal.uint) :
  all isDigit (NilEmpty.string_of_uint d) = true.
Proof. induction d; simpl; auto. Qed.

Lemma decimal_digits (n : Z) : all isDigit (decimal n) = true.
Proof. apply string_of_uint_digits. Qed.

Lemma substring_all (p : ascii -> bool) (s : string) :
  all p s = true -> forall n m, all p (substring n m s) = true.
Proof.
  induction s as [|x s IH]; intros H n m.
  - destruct n, m; reflexivity.
  - simpl in H. apply andb_true_iff in H as [Hx Hs].
    destruct n as [|n]; destruct m as [|m]; simpl; auto.
    rewrite Hx. simpl. apply IH, Hs.
Qed.

Lemma repeat_zero_digits (n : nat) : all isDigit (repeat "0" n) = true.
Proof. induction n; simpl; auto. Qed.

Lemma exponentSuffix_no_point (n : Z) :
  includes "." (exponentSuffix n) = false.
Proof.
  unfold exponentSuffix.
  rewrite includes_app, includes_app, (digits_no_point _ (decimal_digits _)).
  now destruct (n - 1 <? 0)%Z.
Qed.

(** The layout of [Number::toString] writes at most one point. *)
Lemma layout_points (ds : string) (n : Z) :
  all isDigit ds = true -> count "." (layout ds n) <= 1.
Proof.
  intros Hds.
  assert (Hsub : forall i j, count "." (substring i j ds) = 0).
  { intros i j. apply includes_count_zero, digits_no_point.
    now apply substring_all. }
  assert (Hd : count "." ds = 0)
    by now apply includes_count_zero, digits_no_point.
  assert (Hz : forall k, count "." (zeros k) = 0).
  { intros k. apply includes_count_zero, digits_no_point, repeat_zero_digits. }
  assert (He : count "." (exponentSuffix n) = 0)
    by apply includes_count_zero, exponentSuffix_no_point.
  unfold layout, take, drop.
  repeat match goal with
         | |- context [if ?c then _ else _] => destruct c
         end;
    repeat (rewrite count_app || (cbn [append count Ascii.eqb Bool.eqb]));
    rewrite ?Hsub, ?Hd, ?Hz, ?He; simpl; lia.
Qed.

Lemma toString_points (x : Number) : count "." (toString x) <= 1.
Proof.
  destruct x as [s | s | | s m e]; simpl; try lia.
  - destruct s; simpl; lia.
  - assert (H : count "." (toStringPositive m e) <= 1).
    { unfold toStringPositive.
      destruct (shortest _ _ _ _ _ _) as [v k].
      destruct (v =? 10 ^ k)%Z; apply layout_points;
        [reflexivity | apply decimal_digits]. }
    destruct s; simpl; exact H.
Qed.

Lemma trimTrailingZeros_points (x : string) :
  count "." x <= 1 -> count "." (trimTrailingZeros x) <= 1.
Proof.
  intros Hc.
  assert (Hcases : count "." x = 0 \/ count "." x = 1) by lia.
  destruct Hcases as [H0 | H1].
  - apply count_zero_includes in H0.
    now rewrite (trimTrailingZeros_nodot x H0).
  - destruct (count_one_split x H1) as (a & b & -> & Ha & Hb).
    rewrite (trimTrailingZeros_split a b Ha Hb).
    pose proof (includes_count_zero _ _ Ha) as Ha0.
    pose proof (includes_count_zero _ _ Hb) as Hb0.
    pose proof (includes_count_zero _ _ (dropTrailingZeros_nodot b Hb)) as Hd0.
    destruct (zerosToEnd b || isEmpty b).
    + destruct (a =? ""); simpl; lia.
    + destruct (fracZerosToEnd b); rewrite count_app; simpl; lia.
Qed.

Lemma compute_points (a b : string) (op : Operator) :
  count "." (compute a b op) <= 1.
Proof.
  unfold compute, formatResult.
  repeat match goal with
         | |- context [if ?c then _ else _] => destruct c
         end; try (simpl; lia).
  apply trimTrailingZeros_points, toString_points.
Qed.

Lemma sliceInit_count (c : ascii) (s : string) :
  count c (sliceInit s) <= count c s.
Proof.
  induction s as [|x s IH]; [simpl; lia|].
  destruct s as [|y s]; [simpl; lia|].
  change (sliceInit (String x (String y s)))
    with (String x (sliceInit (String y s))).
  change (count c (String x (sliceInit (String y s))))
    with ((if Ascii.eqb x c then 1 else 0) + count c (sliceInit (String y s))).
  change (count c (String x (String y s)))
    with ((if Ascii.eqb x c then 1 else 0) + count c (String y s)).
  lia.
Qed.

Lemma label_no_point (d : Digit) : count "." (label d) = 0.
Proof. now destruct d. Qed.

Lemma click_points (s : State) (b : Action) :
  count "." (current s) <= 1 -> count "." (current (click b s)) <= 1.
Proof.
  destruct s as [c p o w]. cbn [current]. intros H.
  destruct b as [d | | op | | |]; unfold_click; split_tests;
    repeat match goal with
           | E : (_ =? _) = true |- _ => apply String.eqb_eq in E; subst
           end;
    first [ exact H
          | apply compute_points
          | rewrite count_app, label_no_point; simpl; lia
          | rewrite count_app;
            match goal with
            | E : includes "." _ = false |- _ =>
                rewrite (includes_count_zero _ _ E)
            end; simpl; lia
          | pose proof (sliceInit_count "." c); lia
          | rewrite label_no_point; lia
          | simpl; lia ].
Qed.

End Points.

(** X1: in every state of a session the display holds at most one
    decimal point, whether it was typed or came out of [compute]. *)
Theorem current_has_at_most_one_point :
  forall buttons : list Action,
    count "." (current (run buttons initialState)) <= 1.
Proof.
  intros buttons.
  apply (run_invariant (fun s => count "." (current s) <= 1));
    [exact click_points | simpl; lia].
Qed.

Section DecimalKey.

Lemma point_not_error (c : string) :
  includes "." c = true -> (c =? "Error") = false.
Proof. intros H. apply String.eqb_neq. intros ->. discriminate H. Qed.

Lemma click_decimal_with_point (s : State) :
  includes "." (current s) = true -> click ADecimal s = s.
Proof.
  intros H. unfold click, handleButtonClick, handleDecimal, resetIfError.
  rewrite (point_not_error _ H), H. reflexivity.
Qed.

Lemma click_decimal_outcome (s : State) :
  includes "." (current (click ADecimal s)) = true \/ click ADecimal s = s.
Proof.
  destruct s as [c p o w]. unfold_click.
  destruct (c =? "Error") eqn:Ee.
  - apply String.eqb_eq in Ee. subst c. left. now destruct w.
  - destruct (includes "." c) eqn:Ei; [now right|].
    destruct w; [now left|].
    destruct (MAX_LENGTH <? _)%nat; [now right|].
    left. cbn [current]. rewrite includes_app. simpl. apply orb_true_r.
Qed.

End DecimalKey.

(** X2: the decimal key is idempotent: a second press in a row never
    changes anything, in any state. *)
Theorem decimal_key_idempotent :
  forall s : State,
    click ADecimal (click ADecimal s) = click ADecimal s.
Proof.
  intros s. destruct (click_decimal_outcome s) as [H | H].
  - now apply click_decimal_with_point.
  - now rewrite !H.
Qed.

(** ** Typing and deleting *)

Section Editing.

Lemma labels_snoc (ds : list Digit) (d : Digit) :
  Keypad.labels (ds ++ [d]) = Keypad.labels ds ++ label d.
Proof. induction ds as [|x ds IH]; simpl; [reflexivity | now rewrite IH]. Qed.

Lemma labels_length (ds : list Digit) :
  String.length (Keypad.labels ds) = List.length ds.
Proof. induction ds as [|x ds IH]; simpl; [reflexivity | now rewrite IH]. Qed.

Lemma labels_no_minus (ds : list Digit) :
  includes "-" (Keypad.labels ds) = false.
Proof.
  induction ds as [|x ds IH]; simpl; [reflexivity|].
  rewrite IH. now destruct x.
Qed.

Lemma labels_typed (ds : list Digit) : typed (Keypad.labels ds).
Proof.
  unfold typed. induction ds as [|x ds IH]; simpl; [reflexivity|].
  rewrite IH. now destruct x.
Qed.

(** A numeral under edit that does not start with a zero. *)
Lemma labels_not_zero (d : Digit) (ds : list Digit) :
  d <> D0 -> (Keypad.labels (d :: ds) =? "0") = false.
Proof.
  intros H. apply String.eqb_neq. intros E.
  destruct d; try discriminate E. now elim H.
Qed.

(** One more digit on a numeral under edit: appended while there is
    room, ignored at [MAX_LENGTH]. *)
Lemma click_digit_on_numeral (d0 d : Digit) (ds : list Digit)
      (p : option string) (o : option Operator) :
  d0 <> D0 ->
  click (ADigit d) (mkState (Keypad.labels (d0 :: ds)) p o false) =
  if (List.length (d0 :: ds) <? MAX_LENGTH)%nat
  then mkState (Keypad.labels ((d0 :: ds) ++ [d])) p o false
  else mkState (Keypad.labels (d0 :: ds)) p o false.
Proof.
  intros H0. unfold click, handleButtonClick, handleDigit.
  rewrite resetIfError_skip
    by (cbn [current]; apply typed_not_error, labels_typed).
  cbn [current overwrite orb]. unfold initialCurrent.
  rewrite (labels_not_zero d0 ds H0).
  rewrite removeFirst_absent
    by (rewrite includes_app, labels_no_minus; apply label_no_minus).
  rewrite length_app, labels_length. cbn [String.length label].
  rewrite labels_snoc.
  unfold andThen, done, setCurrent. cbn [current previous operator overwrite].
  destruct (MAX_LENGTH <? List.length (d0 :: ds) + 1)%nat eqn:Eg.
  - apply Nat.ltb_lt in Eg.
    destruct (List.length (d0 :: ds) <? MAX_LENGTH)%nat eqn:El;
      [apply Nat.ltb_lt in El; lia | reflexivity].
  - apply Nat.ltb_ge in Eg.
    destruct (List.length (d0 :: ds) <? MAX_LENGTH)%nat eqn:El;
      [| apply Nat.ltb_ge in El; lia].
    unfold label at 1.
    rewrite (eqb_empty_false _ (app_cons_nonempty _ _ _)). reflexivity.
Qed.

Lemma run_digits_on_numeral (rest : list Digit) :
  forall (d0 : Digit) (ds : list Digit) (p : option string)
         (o : option Operator),
    d0 <> D0 -> List.length (d0 :: ds) <= MAX_LENGTH ->
    run (map ADigit rest) (mkState (Keypad.labels (d0 :: ds)) p o false) =
    mkState (Keypad.labels (firstn MAX_LENGTH ((d0 :: ds) ++ rest))) p o false.
Proof.
  induction rest as [|d rest IH]; intros d0 ds p o H0 Hl.
  - cbn [map run fold_left]. rewrite app_nil_r, firstn_all2 by exact Hl.
    reflexivity.
  - cbn [map]. change (run (ADigit d :: map ADigit rest) ?s)
      with (run (map ADigit rest) (click (ADigit d) s)).
    rewrite (click_digit_on_numeral d0 d ds p o H0).
    destruct (List.length (d0 :: ds) <? MAX_LENGTH)%nat eqn:El.
    + apply Nat.ltb_lt in El.
      change ((d0 :: ds) ++ [d])%list with (d0 :: (ds ++ [d]))%list.
      rewrite IH; [| exact H0 |].
      * change (d0 :: (ds ++ [d]))%list with ((d0 :: ds) ++ [d])%list.
        now rewrite <- app_assoc.
      * cbn [List.length] in *. rewrite List.length_app. cbn [List.length]. lia.
    + apply Nat.ltb_ge in El.
      rewrite IH by assumption.
      assert (Hfull : List.length (d0 :: ds) = MAX_LENGTH) by lia.
      rewrite !firstn_app, Hfull, Nat.sub_diag. cbn [firstn].
      reflexivity.
Qed.

End Editing.

(** X3: typing a numeral whose first digit is not zero, on a display
    that shows ["0"] or is due to be overwritten, shows exactly the
    digits typed, cut off after [MAX_LENGTH] = 18 of them; the pending
    operation is untouched. *)
Theorem typed_digits_are_displayed :
  forall (s : State) (d : Digit) (ds : list Digit),
    current s <> "Error" ->
    overwrite s = true \/ current s = "0" ->
    d <> D0 ->
    run (map ADigit (d :: ds)) s =
    mkState (Keypad.labels (firstn 18 (d :: ds)))
            (previous s) (operator s) false.
Proof.
  intros [c p o w] d ds He Hs Hd. cbn [current overwrite] in *.
  cbn [map]. change (run (ADigit d :: map ADigit ds) ?s)
    with (run (map ADigit ds) (click (ADigit d) s)).
  assert (Hfirst : click (ADigit d) (mkState c p o w) =
                   mkState (Keypad.labels [d]) p o false).
  { unfold click, handleButtonClick, handleDigit.
    rewrite resetIfError_skip by exact He.
    cbn [current overwrite]. unfold initialCurrent.
    destruct Hs as [-> | ->]; [now destruct d|].
    destruct w; now destruct d. }
  rewrite Hfirst.
  rewrite (run_digits_on_numeral ds d [] p o Hd)
    by (unfold MAX_LENGTH; simpl; lia).
  reflexivity.
Qed.

Lemma typed_digits_are_displayed_witness :
  current initialState <> "Error" /\
  (overwrite initialState = true \/ current initialState = "0") /\
  D4 <> D0 /\
  run (map ADigit [D4; D0; D2]) initialState = mkState "402" None None false.
Proof.
  assert (He : current initialState <> "Error") by discriminate.
  assert (Hs : overwrite initialState = true \/ current initialState = "0")
    by (right; reflexivity).
  assert (Hd : D4 <> D0) by discriminate.
  split; [exact He|]. split; [exact Hs|]. split; [exact Hd|].
  exact (typed_digits_are_displayed initialState D4 [D0; D2] He Hs Hd).
Defined.

(** ** The delete key *)

Section DeleteKey.

Lemma sliceInit_snoc (c : string) (a : ascii) :
  sliceInit (c ++ String a "") = c.
Proof.
  induction c as [|x c IH]; [reflexivity|].
  change (String x c ++ String a "") with (String x (c ++ String a "")).
  destruct (c ++ String a "") as [|y t] eqn:E.
  - destruct c; discriminate E.
  - change (sliceInit (String x (String y t)))
      with (String x (sliceInit (String y t))).
    now rewrite IH.
Qed.

Lemma snoc_digit_not_error (c : string) (d : Digit) :
  (c ++ label d =? "Error") = false.
Proof.
  apply String.eqb_neq. intros E.
  assert (H : Keypad.lastChar (c ++ label d) = Some (digitChar d)).
  { clear E. induction c as [|x c IH]; [reflexivity|].
    change (String x c ++ label d) with (String x (c ++ label d)).
    destruct (c ++ label d) eqn:Ec; [destruct c; discriminate Ec|].
    exact IH. }
  rewrite E in H. destruct d; discriminate H.
Qed.

(** Delete on an operand under edit. *)
Lemma click_delete_typed (c : string) (p : option string)
      (o : option Operator) :
  typed c ->
  click ADelete (mkState c p o false) =
  mkState (if (String.length c <=? 1)%nat then "0" else sliceInit c)
          p o false.
Proof.
  intros Hc. unfold click, handleButtonClick, handleDelete.
  rewrite resetIfError_skip by (cbn [current]; now apply typed_not_error).
  cbn [current overwrite]. now destruct (String.length c <=? 1)%nat.
Qed.

Lemma run_delete_zero (n : nat) (p : option string) (o : option Operator) :
  run (List.repeat ADelete n) (mkState "0" p o false) = mkState "0" p o false.
Proof. induction n as [|n IH]; [reflexivity | exact IH]. Qed.

Lemma run_delete_typed (n : nat) :
  forall (c : string) (p : option string) (o : option Operator),
    typed c -> String.length c <= n -> 1 <= n ->
    run (List.repeat ADelete n) (mkState c p o false) = mkState "0" p o false.
Proof.
  induction n as [|n IH]; intros c p o Hc Hl Hn; [lia|].
  cbn [List.repeat]. change (run (ADelete :: ?l) ?s)
    with (run l (click ADelete s)).
  rewrite (click_delete_typed c p o Hc).
  destruct (String.length c <=? 1)%nat eqn:E.
  - apply run_delete_zero.
  - apply Nat.leb_gt in E. apply IH.
    + now apply sliceInit_all.
    + rewrite sliceInit_length. lia.
    + lia.
Qed.

End DeleteKey.

(** X4: outside the error state, in any session, pressing delete at
    least as many times as the display has characters leaves ["0"] on
    display with [overwrite] cleared, and keeps the pending operator
    and previous operand. *)
Theorem delete_clears_operand :
  forall (buttons : list Action) (n : nat),
    let s := run buttons initialState in
    current s <> "Error" ->
    String.length (current s) <= n ->
    run (List.repeat ADelete n) s =
    mkState "0" (previous s) (operator s) false.
Proof.
  intros buttons n s He Hl.
  pose proof (run_typed_under_edit buttons) as Ht.
  pose proof (run_invariant (fun t => current t <> "") click_nonempty
                buttons initialState ltac:(discriminate)) as Hne.
  fold s in Ht, Hne. destruct s as [c p o w].
  cbn [current previous operator overwrite] in *.
  assert (Hn : 1 <= n).
  { destruct c; [congruence | simpl in Hl; lia]. }
  destruct w.
  - destruct n as [|n]; [lia|].
    cbn [List.repeat]. change (run (ADelete :: ?l) ?t)
      with (run l (click ADelete t)).
    unfold click at 1, handleButtonClick, handleDelete.
    rewrite resetIfError_skip by exact He.
    apply run_delete_zero.
  - now apply run_delete_typed; [apply Ht | |].
Qed.

Lemma delete_clears_operand_witness :
  current (run [ADigit D4; ADigit D2; AOperator Add; ADigit D7; ADigit D1]
               initialState) <> "Error" /\
  run (List.repeat ADelete 2)
      (run [ADigit D4; ADigit D2; AOperator Add; ADigit D7; ADigit D1]
           initialState) =
  mkState "0" (Some "42") (Some Add) false.
Proof.
  split; [discriminate|].
  apply (delete_clears_operand
           [ADigit D4; ADigit D2; AOperator Add; ADigit D7; ADigit D1] 2);
    [discriminate | simpl; lia].
Defined.

(** X5: in a session, a digit key accepted on an operand under edit is
    undone by the delete key: with fewer than 18 characters on display
    and [overwrite] clear, digit then delete restores the state. *)
Theorem delete_undoes_digit :
  forall (buttons : list Action) (d : Digit),
    let s := run buttons initialState in
    overwrite s = false ->
    String.length (current s) < 18 ->
    click ADelete (click (ADigit d) s) = s.
Proof.
  intros buttons d s Hw Hl.
  pose proof (run_typed_under_edit buttons) as Ht.
  pose proof (run_invariant (fun t => current t <> "") click_nonempty
                buttons initialState ltac:(discriminate)) as Hne.
  pose proof (run_bounded buttons) as Hb.
  fold s in Ht, Hne, Hb. unfold bounded in Hb.
  destruct s as [c p o w]. cbn [current overwrite] in *. subst w.
  specialize (Ht eq_refl). destruct Hb as [Hm _].
  unfold click at 2, handleButtonClick, handleDigit.
  rewrite resetIfError_skip by (cbn [current]; now apply typed_not_error).
  cbn [current overwrite orb]. unfold initialCurrent.
  destruct (c =? "0") eqn:E0.
  - apply String.eqb_eq in E0. subst c. now destruct d.
  - rewrite removeFirst_absent
      by (rewrite includes_app, Hm; apply label_no_minus).
    rewrite length_app. cbn [String.length label].
    destruct (MAX_LENGTH <? String.length c + 1)%nat eqn:Eg;
      [apply Nat.ltb_lt in Eg; unfold MAX_LENGTH in Eg; lia|].
    unfold label at 1.
    rewrite (eqb_empty_false _ (app_cons_nonempty _ _ _)).
    unfold andThen, done, setCurrent.
    cbn [current previous operator overwrite].
    unfold click, handleButtonClick, handleDelete, resetIfError.
    cbn [current overwrite].
    rewrite snoc_digit_not_error.
    unfold andThen, done, setCurrent.
    cbn [current previous operator overwrite].
    rewrite length_app. cbn [String.length label].
    destruct (String.length c + 1 <=? 1)%nat eqn:El.
    + apply Nat.leb_le in El. destruct c; [congruence | simpl in El; lia].
    + unfold label. now rewrite sliceInit_snoc.
Qed.

Lemma delete_undoes_digit_witness :
  overwrite (run [ADigit D4; ADecimal] initialState) = false /\
  String.length (current (run [ADigit D4; ADecimal] initialState)) < 18 /\
  click ADelete (click (ADigit D9) (run [ADigit D4; ADecimal] initialState)) =
  run [ADigit D4; ADecimal] initialState.
Proof.
  split; [reflexivity|]. split; [simpl; lia|].
  apply (delete_undoes_digit [ADigit D4; ADecimal] D9);
    [reflexivity | simpl; lia].
Defined.

(** ** Operator and equal keys in sequence *)

(** X6: outside the error state, a second operator key pressed right
    after a first one only replaces the pending operator: nothing is
    evaluated and the operands stay as they were. *)
Theorem operator_twice_switches_operator :
  forall (s : State) (op1 op2 : Operator),
    current s <> "Error" ->
    current (click (AOperator op1) s) <> "Error" ->
    click (AOperator op2) (click (AOperator op1) s) =
    setOperator (Some op2) (click (AOperator op1) s).
Proof.
  intros s op1 op2 He He1.
  unfold click at 1, handleButtonClick, handleOperator.
  rewrite (resetIfError_skip _ He1).
  revert He1. unfold click, handleButtonClick, handleOperator.
  rewrite (resetIfError_skip s He).
  destruct s as [c p o w]. cbn [current previous operator overwrite].
  destruct o, p, w; reflexivity.
Qed.

Lemma operator_twice_switches_operator_witness :
  current (mkState "3" (Some "2") (Some Add) false) <> "Error" /\
  click (AOperator Subtract)
        (click (AOperator Multiply) (mkState "3" (Some "2") (Some Add) false)) =
  mkState "5" (Some "5") (Some Subtract) true.
Proof.
  split; [discriminate|].
  rewrite (operator_twice_switches_operator
             (mkState "3" (Some "2") (Some Add) false) Multiply Subtract);
    [reflexivity | discriminate | vm_compute; discriminate].
Defined.

(** X7: pressing [=] a second time in a row changes nothing, unless the
    first press put the error sentinel on display; then the second
    press resets the calculator to its initial state. *)
Theorem equal_twice :
  forall s : State,
    click AEqual (click AEqual s) =
    if current (click AEqual s) =? "Error" then initialState
    else click AEqual s.
Proof.
  intros [c p o w].
  assert (Hreset : forall r w', click AEqual (mkState r None None w') =
                     if r =? "Error" then initialState
                     else mkState r None None w').
  { intros r w'. unfold_click. now destruct (r =? "Error"). }
  assert (Hidle : forall p' o',
             match o', p' with Some _, Some _ => False | _, _ => True end ->
             click AEqual (mkState c p' o' w) =
             if c =? "Error" then initialState else mkState c p' o' w).
  { intros p' o' H. unfold_click.
    destruct o', p'; try contradiction; now destruct (c =? "Error"). }
  destruct o as [op|], p as [prev|].
  - assert (H : click AEqual (mkState c (Some prev) (Some op) w) =
                mkState (compute prev c op) None None true).
    { unfold_click. now destruct (c =? "Error"). }
    rewrite H. cbn [current]. apply Hreset.
  - rewrite (Hidle None (Some op) I).
    destruct (c =? "Error") eqn:Ee; [reflexivity|].
    cbn [current]. rewrite Ee. now apply Hidle.
  - rewrite (Hidle (Some prev) None I).
    destruct (c =? "Error") eqn:Ee; [reflexivity|].
    cbn [current]. rewrite Ee. now apply Hidle.
  - rewrite (Hidle None None I).
    destruct (c =? "Error") eqn:Ee; [reflexivity|].
    cbn [current]. rewrite Ee. now apply Hidle.
Qed.

(** X8: when an operation is pending with its right operand typed and
    its result is not the error sentinel, pressing [=] before the next
    operator key makes no difference: the operator key leads to the
    same state either way. *)
Theorem equal_before_operator_is_redundant :
  forall (s : State) (op next : Operator) (prev : string),
    operator s = Some op -> previous s = Some prev -> overwrite s = false ->
    compute prev (current s) op <> "Error" ->
    click (AOperator next) (click AEqual s) = click (AOperator next) s.
Proof.
  intros [c p o w] op next prev Ho Hp Hw Hr.
  cbn [current previous operator overwrite] in *. subst o p w.
  apply String.eqb_neq in Hr.
  assert (H : click AEqual (mkState c (Some prev) (Some op) false) =
              mkState (compute prev c op) None None true).
  { unfold_click. reflexivity. }
  rewrite H. unfold_click. now rewrite Hr.
Qed.

Lemma equal_before_operator_is_redundant_witness :
  compute "2" "3" Add <> "Error" /\
  click (AOperator Multiply)
        (click AEqual (mkState "3" (Some "2") (Some Add) false)) =
  click (AOperator Multiply) (mkState "3" (Some "2") (Some Add) false).
Proof.
  split; [vm_compute; discriminate|].
  apply (equal_before_operator_is_redundant
           (mkState "3" (Some "2") (Some Add) false) Add Multiply "2");
    [reflexivity | reflexivity | reflexivity | vm_compute; discriminate].
Defined.

(** ** Leaving the error state *)

(** X9: in every error state a session reaches, the digit, decimal and
    delete keys act exactly as on the initial state: the calculator
    recovers with the key's own effect applied to a fresh state. *)
Theorem typing_recovers_from_error :
  forall (buttons : list Action) (b : Action),
    let s := run buttons initialState in
    current s = "Error" -> isTyping b = true ->
    click b s = click b initialState.
Proof.
  intros buttons b s He Hb.
  apply error_reset_agrees;
    [exact He | now apply error_state_overwrites |].
  destruct b; try discriminate Hb; exact I.
Qed.

Lemma typing_recovers_from_error_witness :
  current (run divideByZero initialState) = "Error" /\
  click (ADigit D7) (run divideByZero initialState) =
  mkState "7" None None false.
Proof.
  split; [reflexivity|].
  rewrite (typing_recovers_from_error divideByZero (ADigit D7));
    reflexivity.
Defined.

(** X10: an operator key pressed in an error state of a session keeps
    the sentinel as the left operand, so whatever is typed next, [=]
    shows ["Error"] again. *)
Theorem operator_after_error_poisons_result :
  forall (buttons typing : list Action) (op : Operator),
    let s := run buttons initialState in
    current s = "Error" -> forallb isTyping typing = true ->
    click AEqual (run typing (click (AOperator op) s)) =
    mkState "Error" None None true.
Proof.
  intros buttons typing op s He Ht.
  rewrite (operator_in_error_state s op He
             (error_state_overwrites buttons He)).
  assert (Ha : awaiting "Error" op
                 (run typing (mkState "0" (Some "Error") (Some op) true))).
  { apply run_awaiting; [exact Ht|].
    unfold awaiting. cbn. repeat split. discriminate. }
  destruct Ha as (Hp & Ho & _).
  destruct (run typing _) as [c p o w].
  cbn [current previous operator] in *. subst p o.
  unfold_click.
  assert (Hnan : parseFloat "Error" = S754_nan) by (vm_compute; reflexivity).
  assert (H : compute "Error" c op = "Error").
  { unfold compute. rewrite Hnan. reflexivity. }
  now rewrite H.
Qed.

Lemma operator_after_error_poisons_result_witness :
  current (run divideByZero initialState) = "Error" /\
  click AEqual (run [ADigit D5]
                    (click (AOperator Add) (run divideByZero initialState))) =
  mkState "Error" None None true.
Proof.
  split; [reflexivity|].
  apply (operator_after_error_poisons_result divideByZero [ADigit D5] Add);
    reflexivity.
Defined.

(** X11: outside the error state the digit, decimal and delete keys
    never change the pending operator or the previous operand. *)
Theorem typing_keeps_pending_operation :
  forall (s : State) (b : Action),
    current s <> "Error" -> isTyping b = true ->
    previous (click b s) = previous s /\ operator (click b s) = operator s.
Proof.
  intros [c p o w] b He Hb. cbn [current] in He.
  apply String.eqb_neq in He.
  destruct b as [d | | | | |]; try discriminate Hb;
    unfold_click; rewrite He; split_tests; split; reflexivity.
Qed.

Lemma typing_keeps_pending_operation_witness :
  current (mkState "12" (Some "3") (Some Add) false) <> "Error" /\
  previous (click ADelete (mkState "12" (Some "3") (Some Add) false)) =
  Some "3".
Proof.
  split; [discriminate|].
  apply (typing_keeps_pending_operation
           (mkState "12" (Some "3") (Some Add) false) ADelete);
    [discriminate | reflexivity].
Defined.

(** ** The shape of a trimmed numeral *)

Section TrimmedShape.

Lemma lastChar_app (a b : string) :
  b <> "" -> Keypad.lastChar (a ++ b) = Keypad.lastChar b.
Proof.
  intros Hb. induction a as [|x a IH]; [reflexivity|].
  change (String x a ++ b) with (String x (a ++ b)).
  destruct (a ++ b) eqn:E; [destruct a; [simpl in E; congruence | discriminate E]|].
  exact IH.
Qed.

(** A run of digits that does not end in a zero ends in a digit from
    1 to 9. *)
Lemma lastChar_significant (b : string) :
  b <> "" -> all isDigit b = true -> endsWithZero b = false ->
  exists c, Keypad.lastChar b = Some c /\
            isDigit c = true /\ isZeroChar c = false.
Proof.
  induction b as [|x b IH]; [congruence|].
  intros _ Hd Hz. simpl in Hd. apply andb_true_iff in Hd as [Hx Hd].
  destruct b as [|y b].
  - exists x. simpl in Hz. auto.
  - apply IH; [discriminate | exact Hd | exact Hz].
Qed.

Lemma dropTrailingZeros_digits (b : string) :
  all isDigit b = true -> all isDigit (dropTrailingZeros b) = true.
Proof.
  induction b as [|x b IH]; [reflexivity|].
  intros H. cbn [dropTrailingZeros].
  destruct (all isZeroChar (String x b)); [reflexivity|].
  simpl in *. apply andb_true_iff in H as [Hx Hb].
  now rewrite Hx, IH.
Qed.

Lemma numeral_no_point_digits (b : string) :
  all isNumeralChar b = true -> includes "." b = false ->
  all isDigit b = true.
Proof.
  induction b as [|x b IH]; [reflexivity|]. simpl.
  intros Hn Hp. apply andb_true_iff in Hn as [Hx Hn].
  apply orb_false_iff in Hp as [Hxp Hp].
  rewrite (IH Hn Hp), andb_true_r.
  unfold isNumeralChar in Hx. rewrite Hxp, orb_false_r in Hx. exact Hx.
Qed.

Lemma stripSign_app_tail (a b : string) :
  all isNumeralChar (stripSign (a ++ String "." b)) = true ->
  all isNumeralChar b = true.
Proof.
  intros H.
  assert (Hall : forall t, all isNumeralChar (t ++ String "." b) = true ->
                           all isNumeralChar b = true).
  { intros t Ht. rewrite all_app in Ht.
    apply andb_true_iff in Ht as [_ Ht]. simpl in Ht. exact Ht. }
  destruct a as [|x a].
  - simpl in H. exact H.
  - change (String x a ++ String "." b) with (String x (a ++ String "." b)) in H.
    unfold stripSign in H.
    destruct x as [[] [] [] [] [] [] [] []];
      first [ exact (Hall a H) | exact (Hall (String _ a) H) ].
Qed.

End TrimmedShape.

(** X12: trimming a decimal string leaves no point without a
    significant digit behind it: whenever the result still has a
    decimal point, its last character is a digit from 1 to 9. *)
Theorem trimmed_numeral_ends_significant :
  forall x : string,
    isDecimalString x = true ->
    includes "." (trimTrailingZeros x) = true ->
    exists c, Keypad.lastChar (trimTrailingZeros x) = Some c /\
              isDigit c = true /\ c <> "0"%char.
Proof.
  intros x Hx Hp. unfold isDecimalString in Hx.
  apply andb_true_iff in Hx as [Hn Hc]. apply Nat.leb_le in Hc.
  assert (Hcases : count "." x = 0 \/ count "." x = 1) by lia.
  destruct Hcases as [H0 | H1].
  - apply count_zero_includes in H0.
    rewrite (trimTrailingZeros_nodot x H0) in Hp. congruence.
  - destruct (count_one_split x H1) as (a & b & -> & Ha & Hb).
    pose proof (numeral_no_point_digits b (stripSign_app_tail a b Hn) Hb)
      as Hd.
    rewrite (trimTrailingZeros_split a b Ha Hb) in *.
    assert (Hsig : forall t, t <> "" -> all isDigit t = true ->
                     endsWithZero t = false ->
                     exists c, Keypad.lastChar (a ++ String "." t) = Some c /\
                               isDigit c = true /\ c <> "0"%char).
    { intros t Ht Hdt Hzt.
      destruct (lastChar_significant t Ht Hdt Hzt) as (c & Hl & Hcd & Hcz).
      exists c. repeat split; [| exact Hcd | now apply Ascii.eqb_neq].
      rewrite (lastChar_app a (String "." t)) by discriminate.
      destruct t; [congruence | exact Hl]. }
    destruct (zerosToEnd b || isEmpty b) eqn:Hz.
    + destruct (a =? ""); [discriminate Hp | congruence].
    + apply orb_false_iff in Hz as [Hz He].
      assert (Hne : b <> "") by (destruct b; [discriminate He | discriminate]).
      assert (Hnz : all isZeroChar b = false).
      { unfold zerosToEnd in Hz. rewrite He in Hz. exact Hz. }
      destruct (fracZerosToEnd b) eqn:Hf.
      * apply Hsig.
        -- pose proof (dropTrailingZeros_keeps_nonzero b Hnz) as H.
           intros E. rewrite E in H. discriminate H.
        -- now apply dropTrailingZeros_digits.
        -- apply dropTrailingZeros_no_final_zero.
      * apply Hsig; [exact Hne | exact Hd |].
        unfold fracZerosToEnd in Hf. rewrite Hd, Hnz in Hf.
        simpl in Hf. now rewrite andb_true_r in Hf.
Qed.

Lemma trimmed_numeral_ends_significant_witness :
  isDecimalString "-10.0500" = true /\
  includes "." (trimTrailingZeros "-10.0500") = true /\
  exists c, Keypad.lastChar (trimTrailingZeros "-10.0500") = Some c /\
            isDigit c = true /\ c <> "0"%char.
Proof.
  split; [reflexivity|]. split; [reflexivity|].
  apply (trimmed_numeral_ends_significant "-10.0500"); reflexivity.
Defined.

(** ** The history line and the keypad *)

Section History.

(** Neither the display nor the previous operand is ever blank. *)
Lemma click_operands_nonempty (s : State) (b : Action) :
  current s <> "" /\ previous s <> Some "" ->
  current (click b s) <> "" /\ previous (click b s) <> Some "".
Proof.
  intros [Hc Hp]. split; [now apply click_nonempty|].
  destruct s as [c p o w]. cbn [current previous] in *.
  destruct b as [d | | op | | |]; unfold_click; split_tests;
    first [ exact Hp | discriminate | idtac ].
  all: intros Hq; injection Hq as Hq;
    first [ now apply compute_nonempty in Hq | congruence ].
Qed.

End History.

(** X13: in every state of a session, the history line shows the
    previous operand, a space and the operator glyph exactly when an
    operator is pending, and is a lone no-break space otherwise. *)
Theorem history_shows_pending_operation :
  forall buttons : list Action,
    let s := run buttons initialState in
    match operator s with
    | Some op =>
        exists prev, previous s = Some prev /\
                     Keypad.historyLabel s = prev ++ " " ++ Keypad.glyph op
    | None => Keypad.historyLabel s = Keypad.nbsp
    end.
Proof.
  intros buttons s.
  pose proof (run_invariant paired click_paired buttons initialState
                paired_initial) as Hpair.
  pose proof (run_invariant
                (fun t => current t <> "" /\ previous t <> Some "")
                click_operands_nonempty buttons initialState
                ltac:(split; discriminate)) as [_ Hprev].
  fold s in Hpair, Hprev. unfold paired, present in Hpair.
  unfold Keypad.historyLabel.
  destruct (operator s) as [op|], (previous s) as [prev|].
  - exists prev. split; [reflexivity|].
    destruct prev; [congruence | reflexivity].
  - exfalso. apply (proj1 Hpair); [discriminate | reflexivity].
  - exfalso. apply (proj2 Hpair); [discriminate | reflexivity].
  - reflexivity.
Qed.

(** X14: the keypad is exactly the set of actions: every button of the
    table dispatches to the handler of one action, and every action
    (each digit 0 to 9, the point, the four operators, equal, clear,
    delete) has a button that dispatches to it. *)
Theorem keypad_offers_every_action :
  (forall button : Keypad.ButtonConfig,
      In button Keypad.buttons ->
      exists a : Action, forall render : State,
          Keypad.handleButtonClick render button =
          Some (handleButtonClick render a)) /\
  (forall a : Action,
      exists button : Keypad.ButtonConfig,
        In button Keypad.buttons /\
        forall render : State,
          Keypad.handleButtonClick render button =
          Some (handleButtonClick render a)).
Proof.
  split.
  - intros button Hin. unfold Keypad.buttons in Hin.
    repeat (destruct Hin as [<- | Hin];
            [ first [ now exists AClear | now exists ADelete
                    | now exists AEqual | now exists ADecimal
                    | now exists (AOperator Divide)
                    | now exists (AOperator Multiply)
                    | now exists (AOperator Subtract)
                    | now exists (AOperator Add)
                    | now exists (ADigit D0) | now exists (ADigit D1)
                    | now exists (ADigit D2) | now exists (ADigit D3)
                    | now exists (ADigit D4) | now exists (ADigit D5)
                    | now exists (ADigit D6) | now exists (ADigit D7)
                    | now exists (ADigit D8) | now exists (ADigit D9) ] |]).
    contradiction.
  - intros [d | | op | | |].
    + exists (Keypad.key (label d) Keypad.KDigit).
      split; [destruct d; simpl; tauto | reflexivity].
    + exists (Keypad.key "." Keypad.KDecimal).
      split; [simpl; tauto | reflexivity].
    + exists (Keypad.operatorKey op).
      split; [destruct op; simpl; tauto | now destruct op].
    + exists (Keypad.key "=" Keypad.KEqual).
      split; [simpl; tauto | reflexivity].
    + exists (Keypad.key "C" Keypad.KClear).
      split; [simpl; tauto | reflexivity].
    + exists (Keypad.key "DEL" Keypad.KDelete).
      split; [simpl; tauto | reflexivity].
Qed.

(** ** Edges of digit entry *)

(** X15: leading zeros do not accumulate: on a display that shows
    ["0"] with [overwrite] clear, any number of presses of the zero key
    changes nothing. *)
Theorem zero_key_on_zero_is_idle :
  forall (s : State) (n : nat),
    current s = "0" -> overwrite s = false ->
    run (List.repeat (ADigit D0) n) s = s.
Proof.
  intros [c p o w] n Hc Hw. cbn [current overwrite] in *. subst c w.
  induction n as [|n IH]; [reflexivity | exact IH].
Qed.

Lemma zero_key_on_zero_is_idle_witness :
  current initialState = "0" /\ overwrite initialState = false /\
  run (List.repeat (ADigit D0) 3) initialState = initialState.
Proof.
  split; [reflexivity|]. split; [reflexivity|].
  apply (zero_key_on_zero_is_idle initialState 3); reflexivity.
Defined.

(** X16: in a session, once the operand under edit has 18 characters
    the digit keys and the decimal key do nothing. *)
Theorem full_operand_rejects_input :
  forall (buttons : list Action) (b : Action),
    let s := run buttons initialState in
    overwrite s = false ->
    String.length (current s) = 18 ->
    match b with ADigit _ | ADecimal => True | _ => False end ->
    click b s = s.
Proof.
  intros buttons b s Hw Hl Hb.
  pose proof (run_typed_under_edit buttons) as Ht.
  pose proof (run_bounded buttons) as Hbd.
  fold s in Ht, Hbd. unfold bounded in Hbd.
  destruct s as [c p o w]. cbn [current overwrite] in *. subst w.
  specialize (Ht eq_refl). destruct Hbd as [Hm _].
  assert (He : (c =? "Error") = false)
    by now apply String.eqb_neq, typed_not_error.
  assert (H0 : (c =? "0") = false).
  { apply String.eqb_neq. intros ->. discriminate Hl. }
  assert (Hfull : forall t, includes "-" t = false -> String.length t = 1 ->
            (MAX_LENGTH <? String.length (removeFirst "-" (c ++ t)))%nat = true).
  { intros t Hmt Hlt.
    rewrite removeFirst_absent by now rewrite includes_app, Hm, Hmt.
    rewrite length_app, Hl, Hlt. reflexivity. }
  destruct b as [d | | | | |]; try contradiction; unfold_click;
    rewrite He.
  - cbn [orb]. unfold initialCurrent. rewrite H0.
    now rewrite (Hfull (label d) (label_no_minus d) eq_refl).
  - destruct (includes "." c); [reflexivity|].
    now rewrite (Hfull "." eq_refl eq_refl).
Qed.

Lemma full_operand_rejects_input_witness :
  overwrite (run (List.repeat (ADigit D7) 18) initialState) = false /\
  String.length (current (run (List.repeat (ADigit D7) 18) initialState))
    = 18 /\
  click ADecimal (run (List.repeat (ADigit D7) 18) initialState) =
  run (List.repeat (ADigit D7) 18) initialState.
Proof.
  split; [reflexivity|]. split; [reflexivity|].
  apply (full_operand_rejects_input (List.repeat (ADigit D7) 18) ADecimal);
    [reflexivity | reflexivity | exact I].
Defined.
